(** * Shallow embedding of drivers/hwmon/sht15.c (SHT15 humidity / temperature sensor)

    The driver is modelled as a state-and-writer monad over the instance
    data ([struct sht15_data]) and the environment the driver talks to:
    the data line, whose successive samples are a list of levels the
    device will drive, the asynchronous events (interrupt, work item)
    that happen while a caller sleeps in [wait_event_timeout], the IRQ
    disable depth, the pending work flag, [jiffies] and [HZ].  The
    writer part records the bus operations issued by the driver helpers
    (transmission start, bytes sent, acks, ...), so that claims about
    which commands reach the device can be read off the log. *)

From Stdlib Require Import ZArith List Bool Lia.
Import ListNotations.
Open Scope Z_scope.

(** ** Constants *)

(* Commands *)
Definition SHT15_MEASURE_TEMP : Z := 3.
Definition SHT15_MEASURE_RH : Z := 5.
Definition SHT15_WRITE_STATUS : Z := 6.
Definition SHT15_READ_STATUS : Z := 7.
Definition SHT15_SOFT_RESET : Z := 30.

(* Min timings (only the soft reset time is observable) *)
Definition SHT15_TSRST : Z := 11.

(* Status Register Bits *)
Definition SHT15_STATUS_LOW_RESOLUTION : Z := 1.
Definition SHT15_STATUS_NO_OTP_RELOAD : Z := 2.
Definition SHT15_STATUS_HEATER : Z := 4.
Definition SHT15_STATUS_LOW_BATTERY : Z := 64.

(* errno values *)
Definition EIO : Z := 5.
Definition EAGAIN : Z := 11.
Definition EINVAL : Z := 22.
Definition ETIME : Z := 62.

(** C integer types: [u8], [uint16_t], [int] (the kernel is built with
    -fno-strict-overflow, so signed arithmetic wraps) and the 32-bit
    [unsigned long] of the ARM target. *)
Definition u8 (x : Z) : Z := Z.land x 255.
Definition u16 (x : Z) : Z := Z.land x 65535.
Definition int32 (x : Z) : Z := (x + 2 ^ 31) mod 2 ^ 32 - 2 ^ 31.
Definition BITS_PER_LONG : Z := 32.
Definition ulong (x : Z) : Z := x mod 2 ^ BITS_PER_LONG.

(** [time_after(a, b)] is [(long)((b) - (a)) < 0]. *)
Definition time_after (a b : Z) : bool :=
  2 ^ (BITS_PER_LONG - 1) <=? ulong (b - a).

Definition bool_to_Z (b : bool) : Z := if b then 1 else 0.

(** ** Driver state *)

Inductive sht15_state :=
| SHT15_READING_NOTHING
| SHT15_READING_TEMP
| SHT15_READING_HUMID.

Definition sht15_state_eqb (a b : sht15_state) : bool :=
  match a, b with
  | SHT15_READING_NOTHING, SHT15_READING_NOTHING
  | SHT15_READING_TEMP, SHT15_READING_TEMP
  | SHT15_READING_HUMID, SHT15_READING_HUMID => true
  | _, _ => false
  end.

(** The fields of [struct sht15_data] that the protocol code reads or
    writes (the gpio numbers, wait queue, mutex, regulator and hwmon
    handles are the environment). *)
Record sht15_data := mk_sht15_data {
  val_temp : Z;
  val_humid : Z;
  val_status : Z;
  checksum_ok : bool;
  checksumming : bool;
  state : sht15_state;
  measurements_valid : bool;
  status_valid : bool;
  last_measurement : Z;
  last_status : Z;
  supply_uV : Z;
  supply_uV_valid : bool;
  interrupt_handled : Z
}.

Definition set_val_temp (v : Z) (d : sht15_data) : sht15_data :=
  {| val_temp := v; val_humid := val_humid d; val_status := val_status d;
     checksum_ok := checksum_ok d; checksumming := checksumming d;
     state := state d; measurements_valid := measurements_valid d;
     status_valid := status_valid d; last_measurement := last_measurement d;
     last_status := last_status d; supply_uV := supply_uV d;
     supply_uV_valid := supply_uV_valid d;
     interrupt_handled := interrupt_handled d |}.

Definition set_val_humid (v : Z) (d : sht15_data) : sht15_data :=
  {| val_temp := val_temp d; val_humid := v; val_status := val_status d;
     checksum_ok := checksum_ok d; checksumming := checksumming d;
     state := state d; measurements_valid := measurements_valid d;
     status_valid := status_valid d; last_measurement := last_measurement d;
     last_status := last_status d; supply_uV := supply_uV d;
     supply_uV_valid := supply_uV_valid d;
     interrupt_handled := interrupt_handled d |}.

Definition set_val_status (v : Z) (d : sht15_data) : sht15_data :=
  {| val_temp := val_temp d; val_humid := val_humid d; val_status := v;
     checksum_ok := checksum_ok d; checksumming := checksumming d;
     state := state d; measurements_valid := measurements_valid d;
     status_valid := status_valid d; last_measurement := last_measurement d;
     last_status := last_status d; supply_uV := supply_uV d;
     supply_uV_valid := supply_uV_valid d;
     interrupt_handled := interrupt_handled d |}.

Definition set_checksum_ok (v : bool) (d : sht15_data) : sht15_data :=
  {| val_temp := val_temp d; val_humid := val_humid d;
     val_status := val_status d;
     checksum_ok := v; checksumming := checksumming d;
     state := state d; measurements_valid := measurements_valid d;
     status_valid := status_valid d; last_measurement := last_measurement d;
     last_status := last_status d; supply_uV := supply_uV d;
     supply_uV_valid := supply_uV_valid d;
     interrupt_handled := interrupt_handled d |}.

Definition set_state (v : sht15_state) (d : sht15_data) : sht15_data :=
  {| val_temp := val_temp d; val_humid := val_humid d;
     val_status := val_status d;
     checksum_ok := checksum_ok d; checksumming := checksumming d;
     state := v; measurements_valid := measurements_valid d;
     status_valid := status_valid d; last_measurement := last_measurement d;
     last_status := last_status d; supply_uV := supply_uV d;
     supply_uV_valid := supply_uV_valid d;
     interrupt_handled := interrupt_handled d |}.

Definition set_measurements_valid (v : bool) (d : sht15_data) : sht15_data :=
  {| val_temp := val_temp d; val_humid := val_humid d;
     val_status := val_status d;
     checksum_ok := checksum_ok d; checksumming := checksumming d;
     state := state d; measurements_valid := v;
     status_valid := status_valid d; last_measurement := last_measurement d;
     last_status := last_status d; supply_uV := supply_uV d;
     supply_uV_valid := supply_uV_valid d;
     interrupt_handled := interrupt_handled d |}.

Definition set_status_valid (v : bool) (d : sht15_data) : sht15_data :=
  {| val_temp := val_temp d; val_humid := val_humid d;
     val_status := val_status d;
     checksum_ok := checksum_ok d; checksumming := checksumming d;
     state := state d; measurements_valid := measurements_valid d;
     status_valid := v; last_measurement := last_measurement d;
     last_status := last_status d; supply_uV := supply_uV d;
     supply_uV_valid := supply_uV_valid d;
     interrupt_handled := interrupt_handled d |}.

Definition set_last_measurement (v : Z) (d : sht15_data) : sht15_data :=
  {| val_temp := val_temp d; val_humid := val_humid d;
     val_status := val_status d;
     checksum_ok := checksum_ok d; checksumming := checksumming d;
     state := state d; measurements_valid := measurements_valid d;
     status_valid := status_valid d; last_measurement := v;
     last_status := last_status d; supply_uV := supply_uV d;
     supply_uV_valid := supply_uV_valid d;
     interrupt_handled := interrupt_handled d |}.

Definition set_last_status (v : Z) (d : sht15_data) : sht15_data :=
  {| val_temp := val_temp d; val_humid := val_humid d;
     val_status := val_status d;
     checksum_ok := checksum_ok d; checksumming := checksumming d;
     state := state d; measurements_valid := measurements_valid d;
     status_valid := status_valid d; last_measurement := last_measurement d;
     last_status := v; supply_uV := supply_uV d;
     supply_uV_valid := supply_uV_valid d;
     interrupt_handled := interrupt_handled d |}.

Definition set_interrupt_handled (v : Z) (d : sht15_data) : sht15_data :=
  {| val_temp := val_temp d; val_humid := val_humid d;
     val_status := val_status d;
     checksum_ok := checksum_ok d; checksumming := checksumming d;
     state := state d; measurements_valid := measurements_valid d;
     status_valid := status_valid d; last_measurement := last_measurement d;
     last_status := last_status d; supply_uV := supply_uV d;
     supply_uV_valid := supply_uV_valid d;
     interrupt_handled := v |}.

(** ** Environment and the driver monad *)

(** Asynchronous events that may happen while the caller sleeps in
    [wait_event_timeout]: the data line interrupt is raised, or the
    system workqueue runs [read_work]. *)
Inductive async_event := AIrq | AWork.

Record world := mk_world {
  w_data : sht15_data;
  (** levels the data line shows at the driver's successive samples;
      once exhausted the line floats high (pull-up) *)
  w_line : list bool;
  (** for each [wait_event_timeout], the events delivered meanwhile *)
  w_async : list (list async_event);
  (** [disable_irq] depth of the data line interrupt (0 = enabled) *)
  w_irq_depth : Z;
  (** [read_work] queued and not yet run *)
  w_work_pending : bool;
  w_jiffies : Z;
  w_hz : Z
}.

(** Bus and kernel operations the driver performs, as observed on the
    two wires and in the kernel. *)
Inductive event :=
| EvConnReset            (* sht15_connection_reset: 9 clocks, data high *)
| EvStart                (* sht15_transmission_start *)
| EvByte (b : Z)         (* sht15_send_byte: 8 bits, MSB first *)
| EvAck                  (* sht15_ack *)
| EvEnd                  (* sht15_end_transmission *)
| EvSleep (ms : Z)       (* msleep *)
| EvIrqEnable            (* enable_irq *)
| EvIrqDisable           (* disable_irq_nosync *)
| EvWait (ms : Z).       (* wait_event_timeout, with its timeout *)

Definition M (A : Type) : Type := world -> A * world * list event.

Definition ret {A} (a : A) : M A := fun w => (a, w, []).

Definition bind {A B} (m : M A) (k : A -> M B) : M B :=
  fun w => let '(a, w1, e1) := m w in
           let '(b, w2, e2) := k a w1 in (b, w2, e1 ++ e2).

Notation "x <- m ;; k" := (bind m (fun x => k))
  (at level 100, m at next level, right associativity).
Notation "m ;; k" := (bind m (fun _ => k))
  (at level 100, right associativity).

Definition skip : M unit := ret tt.
Definition emit (e : event) : M unit := fun w => (tt, w, [e]).
Definition get_data : M sht15_data := fun w => (w_data w, w, []).
Definition jiffies : M Z := fun w => (w_jiffies w, w, []).
Definition get_hz : M Z := fun w => (w_hz w, w, []).

Definition set_world_data (d : sht15_data) (w : world) : world :=
  mk_world d (w_line w) (w_async w) (w_irq_depth w) (w_work_pending w)
           (w_jiffies w) (w_hz w).
Definition set_world_line (l : list bool) (w : world) : world :=
  mk_world (w_data w) l (w_async w) (w_irq_depth w) (w_work_pending w)
           (w_jiffies w) (w_hz w).
Definition set_world_async (a : list (list async_event)) (w : world) : world :=
  mk_world (w_data w) (w_line w) a (w_irq_depth w) (w_work_pending w)
           (w_jiffies w) (w_hz w).
Definition set_world_irq_depth (n : Z) (w : world) : world :=
  mk_world (w_data w) (w_line w) (w_async w) n (w_work_pending w)
           (w_jiffies w) (w_hz w).
Definition set_world_work_pending (p : bool) (w : world) : world :=
  mk_world (w_data w) (w_line w) (w_async w) (w_irq_depth w) p
           (w_jiffies w) (w_hz w).

Definition modify_data (f : sht15_data -> sht15_data) : M unit :=
  fun w => (tt, set_world_data (f (w_data w)) w, []).

(** The level of the data line at the next sample: a line with no more
    driven samples floats high. *)
Definition line_head (l : list bool) : bool :=
  match l with
  | [] => true
  | b :: _ => b
  end.

(** [gpio_get_value(gpio_data)]: the next sample of the data line. *)
Definition gpio_get_data : M bool :=
  fun w => (line_head (w_line w), set_world_line (tl (w_line w)) w, []).

Definition msleep (ms : Z) : M unit := emit (EvSleep ms).

(** [enable_irq] / [disable_irq_nosync] on the data line interrupt. *)
Definition enable_irq : M unit :=
  (fun w => (tt, set_world_irq_depth (Z.max 0 (w_irq_depth w - 1)) w, []))
  ;; emit EvIrqEnable.
Definition disable_irq_nosync : M unit :=
  (fun w => (tt, set_world_irq_depth (w_irq_depth w + 1) w, []))
  ;; emit EvIrqDisable.

(** [schedule_work(&data->read_work)]: queueing an already pending work
    item does nothing. *)
Definition schedule_work : M unit :=
  fun w => (tt, set_world_work_pending true w, []).

(** ** Bit and byte helpers *)

Fixpoint sht15_reverse_loop (n : nat) (i byte c : Z) : Z :=
  match n with
  | O => c
  | S n' =>
      sht15_reverse_loop n' (i + 1) byte
        (u8 (Z.lor c (Z.shiftl
               (bool_to_Z (negb (Z.land byte (Z.shiftl 1 i) =? 0))) (7 - i))))
  end.

(** sht15_reverse() - reverse a byte *)
Definition sht15_reverse (byte : Z) : Z := sht15_reverse_loop 8 0 byte 0.

(** Table from CRC datasheet, section 2.4 *)
Definition sht15_crc8_table : list Z := [
  0; 49; 98; 83; 196; 245; 166; 151;
  185; 136; 219; 234; 125; 76; 31; 46;
  67; 114; 33; 16; 135; 182; 229; 212;
  250; 203; 152; 169; 62; 15; 92; 109;
  134; 183; 228; 213; 66; 115; 32; 17;
  63; 14; 93; 108; 251; 202; 153; 168;
  197; 244; 167; 150; 1; 48; 99; 82;
  124; 77; 30; 47; 184; 137; 218; 235;
  61; 12; 95; 110; 249; 200; 155; 170;
  132; 181; 230; 215; 64; 113; 34; 19;
  126; 79; 28; 45; 186; 139; 216; 233;
  199; 246; 165; 148; 3; 50; 97; 80;
  187; 138; 217; 232; 127; 78; 29; 44;
  2; 51; 96; 81; 198; 247; 164; 149;
  248; 201; 154; 171; 60; 13; 94; 111;
  65; 112; 35; 18; 133; 180; 231; 214;
  122; 75; 24; 41; 190; 143; 220; 237;
  195; 242; 161; 144; 7; 54; 101; 84;
  57; 8; 91; 106; 253; 204; 159; 174;
  128; 177; 226; 211; 68; 117; 38; 23;
  252; 205; 158; 175; 56; 9; 90; 107;
  69; 116; 39; 22; 129; 176; 227; 210;
  191; 142; 221; 236; 123; 74; 25; 40;
  6; 55; 100; 85; 194; 243; 160; 145;
  71; 118; 37; 20; 131; 178; 225; 208;
  254; 207; 156; 173; 58; 11; 88; 105;
  4; 53; 102; 87; 192; 241; 162; 147;
  189; 140; 223; 238; 121; 72; 27; 42;
  193; 240; 163; 146; 5; 52; 103; 86;
  120; 73; 26; 43; 188; 141; 222; 239;
  130; 179; 224; 209; 70; 119; 36; 21;
  59; 10; 89; 104; 255; 206; 157; 172].

Definition crc8_table_at (i : Z) : Z := nth (Z.to_nat i) sht15_crc8_table 0.

Fixpoint sht15_crc8_loop (crc : Z) (value : list Z) : Z :=
  match value with
  | [] => crc
  | v :: rest => sht15_crc8_loop (crc8_table_at (Z.lxor v crc)) rest
  end.

(** sht15_crc8() - compute crc8, seeded from the status register mirror *)
Definition sht15_crc8 (data : sht15_data) (value : list Z) : Z :=
  sht15_crc8_loop (sht15_reverse (Z.land (val_status data) 15)) value.

(** ** Transport and framing *)

(** sht15_connection_reset() - reset the comms interface *)
Definition sht15_connection_reset : M unit := emit EvConnReset.

(** sht15_transmission_start() - specific sequence for new transmission *)
Definition sht15_transmission_start : M unit := emit EvStart.

(** sht15_send_byte() - send a single byte to the device *)
Definition sht15_send_byte (byte : Z) : M unit := emit (EvByte (u8 byte)).

(** sht15_wait_for_response() - checks for ack from device *)
Definition sht15_wait_for_response : M Z :=
  b <- gpio_get_data;;
  if b then sht15_connection_reset;; ret (- EIO)
  else ret 0.

(** sht15_send_cmd() - Sends a command to the device. *)
Definition sht15_send_cmd (cmd : Z) : M Z :=
  sht15_transmission_start;;
  sht15_send_byte cmd;;
  sht15_wait_for_response.

(** sht15_soft_reset() - send a soft reset command *)
Definition sht15_soft_reset : M Z :=
  r <- sht15_send_cmd SHT15_SOFT_RESET;;
  if negb (r =? 0) then ret r
  else
    msleep SHT15_TSRST;;
    (* device resets default hardware status register value *)
    modify_data (set_val_status 0);;
    ret r.

(** sht15_ack() - send a ack *)
Definition sht15_ack : M unit := emit EvAck.

(** sht15_end_transmission() - notify device of end of transmission *)
Definition sht15_end_transmission : M unit := emit EvEnd.

Fixpoint sht15_read_bits (n : nat) (byte : Z) : M Z :=
  match n with
  | O => ret byte
  | S n' =>
      b <- gpio_get_data;;
      sht15_read_bits n' (Z.lor (u8 (Z.shiftl byte 1)) (bool_to_Z b))
  end.

(** sht15_read_byte() - Read a byte back from the device, MSB first *)
Definition sht15_read_byte : M Z := sht15_read_bits 8 0.

(** sht15_send_status() - write the status register byte *)
Definition sht15_send_status (status : Z) : M Z :=
  r <- sht15_send_cmd SHT15_WRITE_STATUS;;
  if negb (r =? 0) then ret r
  else
    sht15_send_byte status;;
    r <- sht15_wait_for_response;;
    if negb (r =? 0) then ret r
    else
      modify_data (set_val_status status);;
      ret 0.

(** ** Status register *)

(** The checksum-failure recovery, written identically in
    sht15_update_status() and sht15_measurement(): both exit with [ret]
    ([goto error_ret] or [return]). *)
Definition sht15_crc_recovery : M Z :=
  d <- get_data;;
  let previous_config := Z.land (val_status d) 7 in
  r <- sht15_soft_reset;;
  if negb (r =? 0) then ret r
  else if negb (previous_config =? 0) then
    r <- sht15_send_status previous_config;;
    if negb (r =? 0) then ret r (* unable to restore device settings *)
    else ret (- EAGAIN)
  else ret (- EAGAIN).

(** sht15_update_status() - get updated status register from device if
    too old (the read_lock mutex is the sequential composition). *)
Definition sht15_update_status : M Z :=
  d <- get_data;;
  j <- jiffies;;
  timeout <- get_hz;;
  if time_after j (ulong (last_status d + timeout)) || negb (status_valid d)
  then
    r <- sht15_send_cmd SHT15_READ_STATUS;;
    if negb (r =? 0) then ret r
    else
      status <- sht15_read_byte;;
      d <- get_data;;
      (if checksumming d then
         sht15_ack;;
         c <- sht15_read_byte;;
         let dev_checksum := sht15_reverse c in
         d <- get_data;;
         modify_data (set_checksum_ok
           (sht15_crc8 d [SHT15_READ_STATUS; status] =? dev_checksum))
       else skip);;
      sht15_end_transmission;;
      d <- get_data;;
      if checksumming d && negb (checksum_ok d) then sht15_crc_recovery
      else
        modify_data (set_val_status status);;
        modify_data (set_status_valid true);;
        j <- jiffies;;
        modify_data (set_last_status j);;
        ret 0
  else ret 0.

(** ** Asynchronous completion *)

Definition cmd_of_state (s : sht15_state) : Z :=
  match s with
  | SHT15_READING_TEMP => SHT15_MEASURE_TEMP
  | _ => SHT15_MEASURE_RH
  end.

(** sht15_bh_read_data() - the [read_work] handler *)
Definition sht15_bh_read_data : M unit :=
  (* Firstly, verify the line is low *)
  b <- gpio_get_data;;
  ready <- (if b then
              modify_data (set_interrupt_handled 0);;
              enable_irq;;
              b2 <- gpio_get_data;;
              d <- get_data;;
              ret (negb (b2 || negb (interrupt_handled d =? 0)))
            else ret true);;
  if negb ready then skip
  else
    hi <- sht15_read_byte;;
    let val := u16 (Z.shiftl hi 8) in
    sht15_ack;;
    lo <- sht15_read_byte;;
    let val := Z.lor val lo in
    d <- get_data;;
    (if checksumming d then
       sht15_ack;;
       c <- sht15_read_byte;;
       let dev_checksum := sht15_reverse c in
       d <- get_data;;
       let checksum_vals :=
         [cmd_of_state (state d); u8 (Z.shiftr val 8); u8 val] in
       modify_data (set_checksum_ok (sht15_crc8 d checksum_vals =? dev_checksum))
     else skip);;
    sht15_end_transmission;;
    d <- get_data;;
    (match state d with
     | SHT15_READING_TEMP => modify_data (set_val_temp val)
     | SHT15_READING_HUMID => modify_data (set_val_humid val)
     | SHT15_READING_NOTHING => skip
     end);;
    modify_data (set_state SHT15_READING_NOTHING).

(** sht15_interrupt_fired() *)
Definition sht15_interrupt_fired : M unit :=
  disable_irq_nosync;;
  d <- get_data;;
  modify_data (set_interrupt_handled (interrupt_handled d + 1));;
  d <- get_data;;
  if sht15_state_eqb (state d) SHT15_READING_NOTHING then skip
  else schedule_work.

(** Delivery of an asynchronous event: the interrupt only while it is
    enabled, the work item only while it is queued. *)
Definition deliver (e : async_event) : M unit :=
  match e with
  | AIrq => fun w =>
      if w_irq_depth w =? 0 then sht15_interrupt_fired w else skip w
  | AWork => fun w =>
      if w_work_pending w
      then sht15_bh_read_data (set_world_work_pending false w)
      else skip w
  end.

Fixpoint deliver_all (es : list async_event) : M unit :=
  match es with
  | [] => skip
  | e :: rest => deliver e;; deliver_all rest
  end.

Definition next_async : M (list async_event) :=
  fun w => match w_async w with
           | [] => ([], w, [])
           | es :: rest => (es, set_world_async rest w, [])
           end.

(** [wait_event_timeout(wait_queue, state == SHT15_READING_NOTHING,
    msecs_to_jiffies(ms))]: the events of this wait are delivered, then
    the call returns 0 if the condition still fails (timeout) and a
    positive value otherwise. *)
Definition wait_event_timeout (ms : Z) : M Z :=
  emit (EvWait ms);;
  es <- next_async;;
  deliver_all es;;
  d <- get_data;;
  ret (if sht15_state_eqb (state d) SHT15_READING_NOTHING then 1 else 0).

(** ** Measurements *)

(** sht15_measurement() - get a new value from device *)
Definition sht15_measurement (command timeout_msecs : Z) : M Z :=
  r <- sht15_send_cmd command;;
  if negb (r =? 0) then ret r
  else
    modify_data (set_interrupt_handled 0);;
    enable_irq;;
    b <- gpio_get_data;;
    (if negb b then
       disable_irq_nosync;;
       (* Only relevant if the interrupt hasn't occurred. *)
       d <- get_data;;
       if interrupt_handled d =? 0 then schedule_work else skip
     else skip);;
    r <- wait_event_timeout timeout_msecs;;
    if r =? 0 then (* timeout occurred *)
      disable_irq_nosync;;
      sht15_connection_reset;;
      ret (- ETIME)
    else
      d <- get_data;;
      if checksumming d && negb (checksum_ok d) then sht15_crc_recovery
      else ret 0.

(** sht15_update_measurements() - get updated measures from device if too old *)
Definition sht15_update_measurements : M Z :=
  d <- get_data;;
  j <- jiffies;;
  timeout <- get_hz;;
  if time_after j (ulong (last_measurement d + timeout))
     || negb (measurements_valid d)
  then
    modify_data (set_state SHT15_READING_HUMID);;
    r <- sht15_measurement SHT15_MEASURE_RH 160;;
    if negb (r =? 0) then ret r
    else
      modify_data (set_state SHT15_READING_TEMP);;
      r <- sht15_measurement SHT15_MEASURE_TEMP 400;;
      if negb (r =? 0) then ret r
      else
        modify_data (set_measurements_valid true);;
        j <- jiffies;;
        modify_data (set_last_measurement j);;
        ret 0
  else ret 0.

(** ** Calibration *)

(** Table 9 from datasheet - relates temperature calculation to supply
    voltage: pairs (vdd in microvolts, d1). *)
Definition temppoints : list (Z * Z) :=
  [(2500000, -39400); (3000000, -39600); (3500000, -39700);
   (4000000, -39800); (5000000, -40100)].

Definition tp_vdd (i : nat) : Z := fst (nth i temppoints (0, 0)).
Definition tp_d1 (i : nat) : Z := snd (nth i temppoints (0, 0)).

(** The loop body of sht15_calc_temp() once index [i] is found, in
    [int] arithmetic. *)
Definition sht15_interp (supply : Z) (i : nat) : Z :=
  int32 (int32 (Z.quot
                  (int32 (int32 (supply - tp_vdd (i - 1))
                          * int32 (tp_d1 i - tp_d1 (i - 1))))
                  (int32 (tp_vdd i - tp_vdd (i - 1))))
         + tp_d1 (i - 1)).

(** [for (i = ARRAY_SIZE(temppoints) - 1; i > 0; i--) if (supply_uV >
    temppoints[i - 1].vdd) { d1 = ...; break; }] *)
Fixpoint sht15_calc_d1_loop (i : nat) (supply d1 : Z) : Z :=
  match i with
  | O => d1
  | S i' => if tp_vdd i' <? supply then sht15_interp supply i
            else sht15_calc_d1_loop i' supply d1
  end.

(** The offset [d1] computed by sht15_calc_temp(). *)
Definition sht15_calc_d1 (data : sht15_data) : Z :=
  sht15_calc_d1_loop (length temppoints - 1) (supply_uV data) (tp_d1 0).

(** sht15_calc_temp() - convert the raw reading to a temperature *)
Definition sht15_calc_temp (data : sht15_data) : Z :=
  let d1 := sht15_calc_d1 data in
  let d2 := if negb (Z.land (val_status data) SHT15_STATUS_LOW_RESOLUTION =? 0)
            then 40 else 10 in
  int32 (val_temp data * d2 + d1).

(** sht15_calc_humid() - using last temperature convert raw to humid,
    every operation in [int] arithmetic. *)
Definition sht15_calc_humid (data : sht15_data) : Z :=
  let temp := sht15_calc_temp data in
  let c1 := -4 in
  let '(c2, c3, t2) :=
    if negb (Z.land (val_status data) SHT15_STATUS_LOW_RESOLUTION =? 0)
    then (648000, -7200, 1280)
    else (40500, -28, 80) in
  let h := val_humid data in
  let rh_linear :=
    int32 (int32 (c1 * 1000 + int32 (Z.quot (int32 (c2 * h)) 1000))
           + int32 (Z.quot (int32 (int32 (h * h) * c3)) 10000)) in
  int32 (int32 (Z.quot (int32 (int32 (temp - 25000)
                               * int32 (10000 + int32 (t2 * h))))
                       1000000)
         + rh_linear).

(** ** Sysfs show functions *)

(** What a show function returns: a negative errno, or the number it
    prints into the buffer with [sprintf(buf, "%d\n", ...)]. *)
Inductive show_result := ShowErr (err : Z) | ShowVal (v : Z).

(** sht15_show_status() - show status information in sysfs; [bit] is
    the attribute index (SHT15_STATUS_LOW_BATTERY or
    SHT15_STATUS_HEATER). *)
Definition sht15_show_status (bit : Z) : M show_result :=
  r <- sht15_update_status;;
  if negb (r =? 0) then ret (ShowErr r)
  else
    d <- get_data;;
    ret (ShowVal (if Z.land (val_status d) bit =? 0 then 0 else 1)).

(** sht15_show_temp() - show temperature measurement value in sysfs *)
Definition sht15_show_temp : M show_result :=
  r <- sht15_update_measurements;;
  if negb (r =? 0) then ret (ShowErr r)
  else
    d <- get_data;;
    ret (ShowVal (sht15_calc_temp d)).

(** sht15_show_humidity() - show humidity measurement value in sysfs *)
Definition sht15_show_humidity : M show_result :=
  r <- sht15_update_measurements;;
  if negb (r =? 0) then ret (ShowErr r)
  else
    d <- get_data;;
    ret (ShowVal (sht15_calc_humid d)).

(** ** Heater *)

(** sht15_store_heater() - change heater state via sysfs; [value] is the
    outcome of [kstrtol(buf, 10, &value)] ([None] when it fails) and
    [count] the length of the written buffer. *)
Definition sht15_store_heater (value : option Z) (count : Z) : M Z :=
  match value with
  | None => ret (- EINVAL)
  | Some v =>
      d <- get_data;;
      let status := Z.land (val_status d) 7 in
      let status := if negb (v =? 0) then Z.lor status SHT15_STATUS_HEATER
                    else u8 (Z.land status (Z.lnot SHT15_STATUS_HEATER)) in
      r <- sht15_send_status status;;
      ret (if negb (r =? 0) then r else count)
  end.

(** ** Observations on the bus log *)

(** The command bytes sent, i.e. the bytes that directly follow a
    transmission start. *)
Fixpoint commands (evs : list event) : list Z :=
  match evs with
  | EvStart :: EvByte b :: rest => b :: commands rest
  | _ :: rest => commands rest
  | [] => []
  end.

(** The status bytes written by a write-status command. *)
Fixpoint status_writes (evs : list event) : list Z :=
  match evs with
  | EvStart :: EvByte 6 :: EvByte s :: rest => s :: status_writes rest
  | _ :: rest => status_writes rest
  | [] => []
  end.

(** The timeouts of the waits for a measurement completion. *)
Fixpoint waits (evs : list event) : list Z :=
  match evs with
  | EvWait ms :: rest => ms :: waits rest
  | _ :: rest => waits rest
  | [] => []
  end.

(** Commands and waits together, in the order they happen. *)
Inductive bus_op := OpCmd (b : Z) | OpWait (ms : Z).

Fixpoint bus_ops (evs : list event) : list bus_op :=
  match evs with
  | EvStart :: EvByte b :: rest => OpCmd b :: bus_ops rest
  | EvWait ms :: rest => OpWait ms :: bus_ops rest
  | _ :: rest => bus_ops rest
  | [] => []
  end.

(** ** Program logic *)

(** Weakest precondition of a driver computation for a postcondition on
    its result, final world and bus log. *)
Definition wp {A} (m : M A) (Q : A -> world -> list event -> Prop)
  (w : world) : Prop :=
  let '(a, w', e) := m w in Q a w' e.

(** Events that issue no command and wait for nothing: what the
    interrupt handler and the read work may put on the bus. *)
Definition quiet (e : event) : bool :=
  match e with
  | EvStart | EvByte _ | EvWait _ => false
  | _ => true
  end.

(** The part of the instance data the asynchronous path never writes. *)
Definition async_frame (w w' : world) : Prop :=
  val_status (w_data w') = val_status (w_data w) /\
  checksumming (w_data w') = checksumming (w_data w) /\
  measurements_valid (w_data w') = measurements_valid (w_data w) /\
  last_measurement (w_data w') = last_measurement (w_data w) /\
  status_valid (w_data w') = status_valid (w_data w) /\
  last_status (w_data w') = last_status (w_data w) /\
  w_jiffies w' = w_jiffies w /\ w_hz w' = w_hz w.

(** The byte sht15_read_byte() assembles from eight samples. *)
Definition byte_of_bits (bits : list bool) : Z :=
  fold_left (fun byte b => Z.lor (u8 (Z.shiftl byte 1)) (bool_to_Z b)) bits 0.

(** The outcomes of the checksum-failure recovery started in world [w]:
    the soft reset is refused, or it is acknowledged and then either no
    configuration needs restoring, or the write-status command or its
    byte is refused, or the configuration is restored. *)
Definition recovery_post (w : world) (r : Z) (w' : world) (e : list event)
  : Prop :=
  let d := w_data w in
  let prev := Z.land (val_status d) 7 in
  let reset := [EvStart; EvByte SHT15_SOFT_RESET; EvSleep SHT15_TSRST] in
  (line_head (w_line w) = true /\ r = - EIO /\
   e = [EvStart; EvByte SHT15_SOFT_RESET; EvConnReset] /\ w_data w' = d) \/
  (line_head (w_line w) = false /\ prev = 0 /\ r = - EAGAIN /\
   e = reset /\ w_data w' = set_val_status 0 d) \/
  (line_head (w_line w) = false /\ prev <> 0 /\ r = - EIO /\
   e = reset ++ [EvStart; EvByte SHT15_WRITE_STATUS; EvConnReset] /\
   w_data w' = set_val_status 0 d) \/
  (line_head (w_line w) = false /\ prev <> 0 /\ r = - EIO /\
   e = reset ++ [EvStart; EvByte SHT15_WRITE_STATUS; EvByte prev; EvConnReset] /\
   w_data w' = set_val_status 0 d) \/
  (line_head (w_line w) = false /\ prev <> 0 /\ r = - EAGAIN /\
   e = reset ++ [EvStart; EvByte SHT15_WRITE_STATUS; EvByte prev] /\
   w_data w' = set_val_status prev (set_val_status 0 d)).

(** The staleness tests of sht15_update_status() and
    sht15_update_measurements(). *)
Definition status_stale (w : world) : bool :=
  time_after (w_jiffies w) (ulong (last_status (w_data w) + w_hz w))
  || negb (status_valid (w_data w)).

Definition measurements_stale (w : world) : bool :=
  time_after (w_jiffies w) (ulong (last_measurement (w_data w) + w_hz w))
  || negb (measurements_valid (w_data w)).

(** ** Reference definitions from the specification's words *)

(** Bit reflection of a byte: bit [i] goes to bit [7 - i]. *)
Definition reflect8 (x : Z) : Z :=
  fold_right (fun i acc =>
                if Z.testbit x (Z.of_nat i) then acc + 2 ^ (7 - Z.of_nat i)
                else acc) 0 (seq 0 8).

(** One byte through the CRC-8 generator x^8 + x^5 + x^4 + 1 (0x31),
    most significant bit first. *)
Fixpoint crc8_gen_bits (n : nat) (x : Z) : Z :=
  match n with
  | O => x
  | S n' => crc8_gen_bits n'
              (if Z.testbit x 7 then Z.lxor ((2 * x) mod 256) 49
               else (2 * x) mod 256)
  end.

(** The table-driven reference CRC-8: its table is generated from the
    polynomial, and it starts from the given seed. *)
Definition crc8_ref_table : list Z :=
  map (fun i => crc8_gen_bits 8 (Z.of_nat i)) (seq 0 256).

Definition crc8_ref (seed : Z) (bytes : list Z) : Z :=
  fold_left (fun crc v => nth (Z.to_nat (Z.lxor v crc)) crc8_ref_table 0)
            bytes seed.


(** ** Derived notions used to state further properties *)

(** The instance data once the bottom half has stored the reading [v]
    for the measurement in progress: the [switch (data->state)] of
    sht15_bh_read_data(). *)
Definition reading_stored (v : Z) (d : sht15_data) : sht15_data :=
  match state d with
  | SHT15_READING_TEMP => set_val_temp v d
  | SHT15_READING_HUMID => set_val_humid v d
  | SHT15_READING_NOTHING => d
  end.

(** The levels a device drives on the data line to send the byte [b],
    most significant bit first. *)
Definition bits_msb_first (b : Z) : list bool :=
  map (fun i => Z.testbit b (7 - Z.of_nat i)) (seq 0 8).

(** The humidity formula of sht15_calc_humid() evaluated in exact
    integers, with no [int] wrap-around. *)
Definition calc_humid_exact (data : sht15_data) : Z :=
  let temp := sht15_calc_temp data in
  let '(c2, c3, t2) :=
    if negb (Z.land (val_status data) SHT15_STATUS_LOW_RESOLUTION =? 0)
    then (648000, -7200, 1280)
    else (40500, -28, 80) in
  let h := val_humid data in
  let rh_linear := -4 * 1000 + Z.quot (c2 * h) 1000
                   + Z.quot (h * h * c3) 10000 in
  Z.quot ((temp - 25000) * (10000 + t2 * h)) 1000000 + rh_linear.

(** ** General lemmas *)






(** Checking a boolean property on every integer of [0, n). *)
Lemma check_range (f : Z -> bool) (n : nat) :
  forallb f (map Z.of_nat (seq 0 n)) = true ->
  forall x, 0 <= x < Z.of_nat n -> f x = true.
Proof.
  intros H x Hx.
  rewrite forallb_forall in H. apply H.
  apply in_map_iff. exists (Z.to_nat x). split; [lia |].
  apply in_seq. lia.
Qed.

Lemma u8_range (x : Z) : 0 <= u8 x < 256.
Proof.
  unfold u8. change 255 with (Z.ones 8).
  rewrite Z.land_ones by lia. apply Z.mod_pos_bound. lia.
Qed.

Lemma reverse_involutive_byte (b : Z) :
  0 <= b < 256 -> sht15_reverse (sht15_reverse b) = b.
Proof.
  intros Hb.
  apply Z.eqb_eq.
  apply (check_range (fun b => sht15_reverse (sht15_reverse b) =? b) 256);
    [vm_compute; reflexivity | lia].
Qed.

Lemma reverse_range (b : Z) : 0 <= sht15_reverse b < 256.
Proof.
  unfold sht15_reverse. cbn [sht15_reverse_loop]. apply u8_range.
Qed.

Lemma crc8_table_range (i : Z) : 0 <= crc8_table_at i < 256.
Proof.
  unfold crc8_table_at.
  assert (H : forallb (fun x => (0 <=? x) && (x <? 256)) sht15_crc8_table
              = true) by (vm_compute; reflexivity).
  destruct (Nat.lt_ge_cases (Z.to_nat i) (length sht15_crc8_table)) as [Hl|Hl].
  - rewrite forallb_forall in H.
    specialize (H _ (nth_In _ 0 Hl)).
    apply andb_true_iff in H. destruct H as [H1 H2].
    apply Z.leb_le in H1. apply Z.ltb_lt in H2. lia.
  - rewrite nth_overflow by lia. lia.
Qed.

Lemma crc8_loop_range (crc : Z) (value : list Z) :
  0 <= crc < 256 -> 0 <= sht15_crc8_loop crc value < 256.
Proof.
  revert crc. induction value as [|v rest IH]; intros crc Hc; simpl.
  - exact Hc.
  - apply IH, crc8_table_range.
Qed.

Lemma reverse_nibble_reflect (x : Z) :
  sht15_reverse (Z.land x 15) = reflect8 (Z.land x 15).
Proof.
  assert (H : 0 <= Z.land x 15 < 16).
  { change 15 with (Z.ones 4). rewrite Z.land_ones by lia.
    apply Z.mod_pos_bound. lia. }
  apply Z.eqb_eq.
  apply (check_range (fun y => sht15_reverse y =? reflect8 y) 16);
    [vm_compute; reflexivity | lia].
Qed.

Lemma crc8_loop_ref (crc : Z) (bytes : list Z) :
  sht15_crc8_loop crc bytes = crc8_ref crc bytes.
Proof.
  assert (Ht : sht15_crc8_table = crc8_ref_table) by (vm_compute; reflexivity).
  unfold crc8_ref. revert crc.
  induction bytes as [|v rest IH]; intros crc; simpl; [reflexivity |].
  rewrite IH. unfold crc8_table_at. rewrite Ht. reflexivity.
Qed.



(** ** Claims *)

(** C1 (corrected).  At a supply of 3300000 µV, high resolution and a
    raw temperature code of 800, the offset interpolated between
    (3000000, -39600) and (3500000, -39700) is -39660 (not -39620), and
    the temperature 800 * 10 - 39660 is -31660 milli-degrees. *)
Theorem calc_temp_3300mV (d : sht15_data) :
  supply_uV d = 3300000 ->
  Z.land (val_status d) SHT15_STATUS_LOW_RESOLUTION = 0 ->
  val_temp d = 800 ->
  sht15_calc_d1 d = -39660 /\ sht15_calc_temp d = -31660.
Proof.
  intros Hs Hr Ht.
  unfold sht15_calc_temp, sht15_calc_d1.
  rewrite Hs, Hr, Ht. vm_compute. split; reflexivity.
Qed.

Lemma calc_temp_3300mV_witness :
  let d := mk_sht15_data 800 0 0 false false SHT15_READING_NOTHING
                         false false 0 0 3300000 true 0 in
  sht15_calc_d1 d = -39660 /\ sht15_calc_temp d = -31660.
Proof.
  intros d. apply (calc_temp_3300mV d); reflexivity.
Defined.

(** C1, the claim as stated (-39620 and 7380) fails at this session. *)
Lemma calc_temp_3300mV_claim_fails :
  ~ (forall d : sht15_data,
       supply_uV d = 3300000 ->
       Z.land (val_status d) SHT15_STATUS_LOW_RESOLUTION = 0 ->
       val_temp d = 800 ->
       sht15_calc_d1 d = -39620 /\ sht15_calc_temp d = 7380).
Proof.
  intros H.
  destruct (H (mk_sht15_data 800 0 0 false false SHT15_READING_NOTHING
                             false false 0 0 3300000 true 0))
    as [H1 _]; try reflexivity.
  vm_compute in H1. discriminate.
Qed.

(** C6.  sht15_soft_reset() sends the soft-reset command; when the
    device acknowledges it (data line sampled low), it sleeps 11 ms and
    sets the status mirror to 0, returning 0; otherwise it resets the
    connection and returns -EIO with the mirror unchanged. *)
Theorem soft_reset_spec (w : world) :
  let '(r, w', evs) := sht15_soft_reset w in
  match w_line w with
  | false :: _ =>
      r = 0 /\
      evs = [EvStart; EvByte SHT15_SOFT_RESET; EvSleep SHT15_TSRST] /\
      w_data w' = set_val_status 0 (w_data w)
  | _ =>
      r = - EIO /\
      evs = [EvStart; EvByte SHT15_SOFT_RESET; EvConnReset] /\
      w_data w' = w_data w
  end.
Proof.
  destruct w as [d l a n p j h].
  destruct l as [|[] l]; vm_compute; auto.
Qed.

(** C9.  The CRC-8 validator equals the table-driven reference CRC-8
    (table generated from x^8 + x^5 + x^4 + 1) seeded with the bit
    reflection of the low nibble of the status mirror; byte reversal is
    an involution on bytes, so a checksum reversed twice (once by the
    device, once by the driver) is the checksum itself. *)
Theorem crc8_matches_reference :
  (forall d bytes,
     sht15_crc8 d bytes = crc8_ref (reflect8 (Z.land (val_status d) 15)) bytes) /\
  (forall b, sht15_reverse (sht15_reverse (u8 b)) = u8 b) /\
  (forall d bytes,
     sht15_reverse (sht15_reverse (sht15_crc8 d bytes)) = sht15_crc8 d bytes).
Proof.
  split; [| split].
  - intros d bytes. unfold sht15_crc8.
    rewrite reverse_nibble_reflect. apply crc8_loop_ref.
  - intros b. apply reverse_involutive_byte, u8_range.
  - intros d bytes. apply reverse_involutive_byte.
    unfold sht15_crc8. apply crc8_loop_range, reverse_range.
Qed.

(** ** Program logic rules *)

Lemma wp_bind {A B} (m : M A) (k : A -> M B) Q w :
  wp m (fun a w1 e1 => wp (k a) (fun b w2 e2 => Q b w2 (e1 ++ e2)) w1) w ->
  wp (bind m k) Q w.
Proof.
  unfold wp, bind. destruct (m w) as [[a w1] e1].
  destruct (k a w1) as [[b w2] e2]. auto.
Qed.

Lemma wp_ret {A} (a : A) Q w : Q a w [] -> wp (ret a) Q w.
Proof. auto. Qed.

Lemma wp_emit e Q w : Q tt w [e] -> wp (emit e) Q w.
Proof. auto. Qed.

Lemma wp_get_data Q w : Q (w_data w) w [] -> wp get_data Q w.
Proof. auto. Qed.

Lemma wp_jiffies Q w : Q (w_jiffies w) w [] -> wp jiffies Q w.
Proof. auto. Qed.

Lemma wp_get_hz Q w : Q (w_hz w) w [] -> wp get_hz Q w.
Proof. auto. Qed.

Lemma wp_modify f Q w :
  Q tt (set_world_data (f (w_data w)) w) [] -> wp (modify_data f) Q w.
Proof. auto. Qed.

Lemma wp_gpio Q w :
  Q (line_head (w_line w)) (set_world_line (tl (w_line w)) w) [] ->
  wp gpio_get_data Q w.
Proof. auto. Qed.

Lemma wp_mono {A} (m : M A) (Q Q' : A -> world -> list event -> Prop) w :
  (forall a w' e, Q a w' e -> Q' a w' e) -> wp m Q w -> wp m Q' w.
Proof. unfold wp. destruct (m w) as [[a w'] e]. auto. Qed.

Lemma wp_skip Q w : Q tt w [] -> wp skip Q w.
Proof. auto. Qed.

Ltac wp_step :=
  match goal with
  | |- wp (bind _ _) _ _ => apply wp_bind
  | |- wp skip _ _ => apply wp_skip
  | |- wp (ret _) _ _ => apply wp_ret
  | |- wp (emit _) _ _ => apply wp_emit
  | |- wp sht15_ack _ _ => apply wp_emit
  | |- wp sht15_end_transmission _ _ => apply wp_emit
  | |- wp sht15_connection_reset _ _ => apply wp_emit
  | |- wp get_data _ _ => apply wp_get_data
  | |- wp jiffies _ _ => apply wp_jiffies
  | |- wp get_hz _ _ => apply wp_get_hz
  | |- wp (modify_data _) _ _ => apply wp_modify
  end; cbn beta.
Ltac wps := repeat wp_step.

Lemma set_world_line_eta (w : world) : set_world_line (w_line w) w = w.
Proof. destruct w; reflexivity. Qed.

Lemma wp_wait_for_response Q w :
  (if line_head (w_line w)
   then Q (- EIO) (set_world_line (tl (w_line w)) w) [EvConnReset]
   else Q 0 (set_world_line (tl (w_line w)) w) []) ->
  wp sht15_wait_for_response Q w.
Proof.
  intros H. unfold sht15_wait_for_response.
  apply wp_bind, wp_gpio. cbn beta.
  destruct (line_head (w_line w)); [apply wp_bind, wp_emit, wp_ret | apply wp_ret];
    exact H.
Qed.

Lemma wp_send_cmd c Q w :
  (if line_head (w_line w)
   then Q (- EIO) (set_world_line (tl (w_line w)) w)
          [EvStart; EvByte (u8 c); EvConnReset]
   else Q 0 (set_world_line (tl (w_line w)) w) [EvStart; EvByte (u8 c)]) ->
  wp (sht15_send_cmd c) Q w.
Proof.
  intros H. unfold sht15_send_cmd.
  apply wp_bind, wp_emit, wp_bind, wp_emit, wp_wait_for_response.
  destruct (line_head (w_line w)); exact H.
Qed.

Lemma wp_read_bits_any (n : nat) (byte : Z) (l : list bool) (w : world) Q :
  (forall b, Q b (set_world_line (skipn n l) w) []) ->
  wp (sht15_read_bits n byte) Q (set_world_line l w).
Proof.
  revert byte l. induction n as [|n IH]; intros byte l H.
  - apply wp_ret. apply H.
  - cbn [sht15_read_bits]. apply wp_bind, wp_gpio. cbn beta.
    apply (wp_mono _ (fun b w' e => Q b w' ([] ++ e))); [auto |].
    change (set_world_line (tl (w_line (set_world_line l w)))
                           (set_world_line l w))
      with (set_world_line (tl l) w).
    apply IH. intros b.
    destruct l; cbn [tl skipn] in *; [rewrite skipn_nil |]; apply H.
Qed.

Lemma wp_read_byte_any Q w :
  (forall b, Q b (set_world_line (skipn 8 (w_line w)) w) []) ->
  wp sht15_read_byte Q w.
Proof.
  intros H. unfold sht15_read_byte.
  pattern w at 1. rewrite <- (set_world_line_eta w).
  apply wp_read_bits_any. exact H.
Qed.

Lemma wp_read_bits_exact (bits rest : list bool) (byte : Z) (w : world) Q :
  Q (fold_left (fun byte b => Z.lor (u8 (Z.shiftl byte 1)) (bool_to_Z b))
               bits byte)
    (set_world_line rest w) [] ->
  wp (sht15_read_bits (length bits) byte) Q (set_world_line (bits ++ rest) w).
Proof.
  revert byte. induction bits as [|b bits IH]; intros byte H.
  - apply wp_ret. exact H.
  - cbn [sht15_read_bits length]. apply wp_bind, wp_gpio. cbn beta.
    apply (wp_mono _ (fun b w' e => Q b w' ([] ++ e))); [auto |].
    change (set_world_line (tl (w_line (set_world_line ((b :: bits) ++ rest) w)))
                           (set_world_line ((b :: bits) ++ rest) w))
      with (set_world_line (bits ++ rest) w).
    apply IH. exact H.
Qed.

Lemma wp_read_byte_exact (bits rest : list bool) (w : world) Q :
  length bits = 8%nat ->
  Q (byte_of_bits bits) (set_world_line rest w) [] ->
  wp sht15_read_byte Q (set_world_line (bits ++ rest) w).
Proof.
  intros Hl H. unfold sht15_read_byte. rewrite <- Hl.
  apply wp_read_bits_exact. exact H.
Qed.

Lemma wp_soft_reset Q w :
  (if line_head (w_line w)
   then Q (- EIO) (set_world_line (tl (w_line w)) w)
          [EvStart; EvByte SHT15_SOFT_RESET; EvConnReset]
   else Q 0 (set_world_data (set_val_status 0 (w_data w))
                            (set_world_line (tl (w_line w)) w))
          [EvStart; EvByte SHT15_SOFT_RESET; EvSleep SHT15_TSRST]) ->
  wp sht15_soft_reset Q w.
Proof.
  intros H. unfold sht15_soft_reset.
  apply wp_bind, wp_send_cmd.
  destruct (line_head (w_line w)); cbn beta.
  - apply wp_ret. exact H.
  - apply wp_bind, wp_emit, wp_bind, wp_modify, wp_ret. exact H.
Qed.

Lemma wp_send_status s Q w :
  (let l := w_line w in
   if line_head l
   then Q (- EIO) (set_world_line (tl l) w)
          [EvStart; EvByte SHT15_WRITE_STATUS; EvConnReset]
   else if line_head (tl l)
   then Q (- EIO) (set_world_line (tl (tl l)) w)
          [EvStart; EvByte SHT15_WRITE_STATUS; EvByte (u8 s); EvConnReset]
   else Q 0 (set_world_data (set_val_status s (w_data w))
                            (set_world_line (tl (tl l)) w))
          [EvStart; EvByte SHT15_WRITE_STATUS; EvByte (u8 s)]) ->
  wp (sht15_send_status s) Q w.
Proof.
  intros H. unfold sht15_send_status.
  apply wp_bind, wp_send_cmd. cbn zeta in H.
  destruct (line_head (w_line w)); cbn beta.
  - apply wp_ret. exact H.
  - apply wp_bind, wp_emit, wp_bind, wp_wait_for_response.
    cbn [w_line set_world_line].
    destruct (line_head (tl (w_line w))); cbn beta.
    + apply wp_ret. exact H.
    + apply wp_bind, wp_modify, wp_ret. exact H.
Qed.

Lemma u8_land7 (x : Z) : u8 (Z.land x 7) = Z.land x 7.
Proof. unfold u8. rewrite <- Z.land_assoc. reflexivity. Qed.

Lemma wp_crc_recovery w : wp sht15_crc_recovery (recovery_post w) w.
Proof.
  unfold sht15_crc_recovery.
  apply wp_bind, wp_get_data. cbn beta.
  apply wp_bind, wp_soft_reset.
  unfold recovery_post.
  destruct (line_head (w_line w)) eqn:Hl; cbn beta.
  - apply wp_ret. left. cbn. auto.
  - cbn [negb Z.eqb]. cbn [w_data set_world_data].
    destruct (Z.land (val_status (w_data w)) 7 =? 0) eqn:Hp; cbn [negb].
    + apply wp_ret. right; left. apply Z.eqb_eq in Hp. cbn. auto.
    + apply Z.eqb_neq in Hp.
      apply wp_bind, wp_send_status. cbn zeta.
      cbn [w_line w_data set_world_data set_world_line].
      rewrite u8_land7.
      destruct (line_head (tl (w_line w))); cbn beta;
        [| destruct (line_head (tl (tl (w_line w)))); cbn beta];
        apply wp_ret; rewrite ?app_nil_r.
      * right; right; left. auto.
      * right; right; right; left. auto.
      * right; right; right; right. auto.
Qed.

Lemma update_status_fresh w :
  status_stale w = false -> sht15_update_status w = (0, w, []).
Proof.
  unfold status_stale, sht15_update_status, bind. intros H.
  cbn [get_data jiffies get_hz]. rewrite H. reflexivity.
Qed.

Lemma update_status_refresh w :
  status_stale w = true ->
  wp sht15_update_status
    (fun r w' e =>
       (r = - EIO /\ e = [EvStart; EvByte SHT15_READ_STATUS; EvConnReset] /\
        w_data w' = w_data w) \/
       (r = 0 /\
        (e = [EvStart; EvByte SHT15_READ_STATUS; EvEnd] \/
         e = [EvStart; EvByte SHT15_READ_STATUS; EvAck; EvEnd])) \/
       (exists wm er,
          checksumming (w_data w) = true /\
          val_status (w_data wm) = val_status (w_data w) /\
          status_valid (w_data wm) = status_valid (w_data w) /\
          last_status (w_data wm) = last_status (w_data w) /\
          e = [EvStart; EvByte SHT15_READ_STATUS; EvAck; EvEnd] ++ er /\
          recovery_post wm r w' er)) w.
Proof.
  unfold status_stale. intros Hs. unfold sht15_update_status.
  wps. rewrite Hs.
  apply wp_bind, wp_send_cmd.
  destruct (line_head (w_line w)); cbn beta.
  - wps. left. cbn. auto.
  - apply wp_bind, wp_read_byte_any. intros status. cbn beta.
    wps. cbn [w_data set_world_line].
    destruct (checksumming (w_data w)) eqn:Hc.
    + wps. apply wp_bind, wp_read_byte_any. intros c. cbn beta.
      wps. cbn [w_data set_world_data set_world_line set_checksum_ok
           checksumming checksum_ok].
      rewrite Hc.
      match goal with
      | |- wp (if (true && negb ?b) then _ else _) _ _ => destruct b eqn:Hok
      end; cbn [negb andb].
      * wps. right; left. split; [reflexivity|]. right. reflexivity.
      * eapply wp_mono; [| apply wp_crc_recovery].
        intros r w' er Hr. right; right.
        match type of Hr with recovery_post ?wm _ _ _ => exists wm, er end.
        refine (conj eq_refl (conj eq_refl (conj eq_refl (conj eq_refl (conj _ Hr))))).
        reflexivity.
    + wps. cbn [w_data set_world_line]. rewrite Hc. cbn [andb].
      wps. right; left. split; [reflexivity|]. left. reflexivity.
Qed.

(** ** The asynchronous path issues no command *)

Definition quiet_step {A} (m : M A) : Prop :=
  forall w, wp m (fun _ w' e => forallb quiet e = true /\ async_frame w w') w.

Lemma async_frame_refl w : async_frame w w.
Proof. unfold async_frame. tauto. Qed.

Lemma async_frame_trans w1 w2 w3 :
  async_frame w1 w2 -> async_frame w2 w3 -> async_frame w1 w3.
Proof. unfold async_frame. intros. intuition congruence. Qed.

Lemma qs_bind {A B} (m : M A) (k : A -> M B) :
  quiet_step m -> (forall a, quiet_step (k a)) -> quiet_step (bind m k).
Proof.
  intros Hm Hk w. apply wp_bind.
  eapply wp_mono; [| apply Hm]. intros a w1 e1 [H1 F1].
  eapply wp_mono; [| apply Hk]. intros b w2 e2 [H2 F2].
  split.
  - rewrite forallb_app, H1, H2. reflexivity.
  - eapply async_frame_trans; eassumption.
Qed.

Lemma qs_ret {A} (a : A) : quiet_step (ret a).
Proof. intros w. apply wp_ret. split; [reflexivity | apply async_frame_refl]. Qed.

Lemma qs_emit e : quiet e = true -> quiet_step (emit e).
Proof.
  intros He w. apply wp_emit. cbn. rewrite He.
  split; [reflexivity | apply async_frame_refl].
Qed.

Lemma qs_get_data : quiet_step get_data.
Proof. intros w. apply wp_get_data. split; [reflexivity | apply async_frame_refl]. Qed.

Lemma qs_gpio : quiet_step gpio_get_data.
Proof.
  intros w. apply wp_gpio. split; [reflexivity |].
  destruct w. unfold async_frame. cbn. tauto.
Qed.

Lemma qs_read_byte : quiet_step sht15_read_byte.
Proof.
  intros w. apply wp_read_byte_any. intros b.
  split; [reflexivity |]. destruct w. unfold async_frame. cbn. tauto.
Qed.

Lemma qs_modify f :
  (forall d, val_status (f d) = val_status d /\
             checksumming (f d) = checksumming d /\
             measurements_valid (f d) = measurements_valid d /\
             last_measurement (f d) = last_measurement d /\
             status_valid (f d) = status_valid d /\
             last_status (f d) = last_status d) ->
  quiet_step (modify_data f).
Proof.
  intros Hf w. apply wp_modify. split; [reflexivity |].
  destruct w as [d l a n p j h]. unfold async_frame. cbn.
  specialize (Hf d). tauto.
Qed.

Lemma qs_enable_irq : quiet_step enable_irq.
Proof.
  intros w. destruct w. unfold wp, enable_irq, bind, emit. cbn.
  split; [reflexivity |]. unfold async_frame. cbn. tauto.
Qed.

Lemma qs_disable_irq : quiet_step disable_irq_nosync.
Proof.
  intros w. destruct w. unfold wp, disable_irq_nosync, bind, emit. cbn.
  split; [reflexivity |]. unfold async_frame. cbn. tauto.
Qed.

Lemma qs_schedule_work : quiet_step schedule_work.
Proof.
  intros w. destruct w. unfold wp, schedule_work. cbn.
  split; [reflexivity |]. unfold async_frame. cbn. tauto.
Qed.

Ltac qs :=
  repeat match goal with
  | |- quiet_step (bind _ _) => apply qs_bind; [| intro]
  | |- quiet_step (ret _) => apply qs_ret
  | |- quiet_step skip => apply qs_ret
  | |- quiet_step (emit _) => apply qs_emit; reflexivity
  | |- quiet_step sht15_ack => apply qs_emit; reflexivity
  | |- quiet_step sht15_end_transmission => apply qs_emit; reflexivity
  | |- quiet_step get_data => apply qs_get_data
  | |- quiet_step gpio_get_data => apply qs_gpio
  | |- quiet_step sht15_read_byte => apply qs_read_byte
  | |- quiet_step enable_irq => apply qs_enable_irq
  | |- quiet_step disable_irq_nosync => apply qs_disable_irq
  | |- quiet_step schedule_work => apply qs_schedule_work
  | |- quiet_step (modify_data _) =>
      apply qs_modify; intro; cbn; repeat split
  | |- quiet_step (if ?b then _ else _) => destruct b
  | |- quiet_step (match ?x with _ => _ end) => destruct x
  | |- quiet_step (let _ := _ in _) => cbv zeta
  end.

Lemma qs_bh_read_data : quiet_step sht15_bh_read_data.
Proof. unfold sht15_bh_read_data. qs. Qed.

Lemma qs_interrupt_fired : quiet_step sht15_interrupt_fired.
Proof. unfold sht15_interrupt_fired. qs. Qed.

Lemma qs_deliver e : quiet_step (deliver e).
Proof.
  intros w. destruct e; unfold deliver, wp.
  - destruct (w_irq_depth w =? 0).
    + apply qs_interrupt_fired.
    + apply qs_ret.
  - destruct (w_work_pending w) eqn:Hp.
    + pose proof (qs_bh_read_data (set_world_work_pending false w)) as H.
      unfold wp in H.
      destruct (sht15_bh_read_data (set_world_work_pending false w))
        as [[u w'] e'].
      destruct H as [H1 H2]. split; [exact H1 |].
      eapply async_frame_trans; [| exact H2].
      destruct w. unfold async_frame. cbn. tauto.
    + apply qs_ret.
Qed.

Lemma qs_deliver_all es : quiet_step (deliver_all es).
Proof.
  induction es as [|e es IH]; cbn [deliver_all].
  - apply qs_ret.
  - apply qs_bind; [apply qs_deliver | intros; apply IH].
Qed.

Lemma wp_wait_event_timeout ms Q w :
  (forall w' q, forallb quiet q = true -> async_frame w w' ->
     Q (if sht15_state_eqb (state (w_data w')) SHT15_READING_NOTHING
        then 1 else 0) w' (EvWait ms :: q)) ->
  wp (wait_event_timeout ms) Q w.
Proof.
  intros H. unfold wait_event_timeout.
  apply wp_bind, wp_emit, wp_bind.
  assert (Hn : wp next_async (fun es w1 e1 => e1 = [] /\ async_frame w w1) w).
  { unfold wp, next_async. destruct (w_async w).
    - split; [reflexivity | apply async_frame_refl].
    - split; [reflexivity |]. destruct w. unfold async_frame. cbn. tauto. }
  eapply wp_mono; [| exact Hn]. intros es w1 e1 [-> F1]. cbn beta.
  apply wp_bind.
  eapply wp_mono; [| apply qs_deliver_all]. intros u w2 e2 [Q2 F2].
  cbn beta. apply wp_bind, wp_get_data, wp_ret.
  rewrite !app_nil_r. cbn [app].
  apply H; [exact Q2 |].
  eapply async_frame_trans; eassumption.
Qed.

Lemma async_frame_set_line w l : async_frame w (set_world_line l w).
Proof. destruct w. unfold async_frame. cbn. tauto. Qed.

Ltac wp_quiet :=
  match goal with
  | |- wp ?m _ ?w =>
      let H := fresh "Hq" in
      assert (H : quiet_step m) by qs;
      eapply wp_mono; [| apply (H w)]; clear H
  end.

Lemma wp_disable_irq Q w :
  Q tt (set_world_irq_depth (w_irq_depth w + 1) w) [EvIrqDisable] ->
  wp disable_irq_nosync Q w.
Proof. unfold wp, disable_irq_nosync, bind, emit. cbn. auto. Qed.

Lemma async_frame_irq w n : async_frame w (set_world_irq_depth n w).
Proof. destruct w. unfold async_frame. cbn. tauto. Qed.

Lemma measurement_shape cmd ms w :
  wp (sht15_measurement cmd ms)
    (fun r w' e =>
       (r = - EIO /\ e = [EvStart; EvByte (u8 cmd); EvConnReset] /\
        w' = set_world_line (tl (w_line w)) w) \/
       (exists pre q tail,
          e = [EvStart; EvByte (u8 cmd)] ++ pre ++ EvWait ms :: q ++ tail /\
          forallb quiet pre = true /\ forallb quiet q = true /\
          ((r = - ETIME /\ tail = [EvIrqDisable; EvConnReset] /\
            async_frame w w') \/
           (r = 0 /\ tail = [] /\ async_frame w w') \/
           (exists wm, async_frame w wm /\ recovery_post wm r w' tail)))) w.
Proof.
  unfold sht15_measurement. apply wp_bind, wp_send_cmd.
  destruct (line_head (w_line w)) eqn:Hl; cbn beta.
  - wps. left. auto.
  - assert (F0 := async_frame_set_line w (tl (w_line w))).
    apply wp_bind. wp_quiet. intros u1 w1 e1 [Q1 F1]. cbn beta.
    apply wp_bind. wp_quiet. intros u2 w2 e2 [Q2 F2]. cbn beta.
    apply wp_bind. wp_quiet. intros b w3 e3 [Q3 F3]. cbn beta.
    apply wp_bind. wp_quiet. intros u4 w4 e4 [Q4 F4]. cbn beta.
    apply wp_bind, wp_wait_event_timeout. intros w5 q Q5 F5. cbn beta.
    assert (F := async_frame_trans _ _ _ F0
                   (async_frame_trans _ _ _ F1
                      (async_frame_trans _ _ _ F2
                         (async_frame_trans _ _ _ F3
                            (async_frame_trans _ _ _ F4 F5))))).
    destruct ((if sht15_state_eqb (state (w_data w5)) SHT15_READING_NOTHING
               then 1 else 0) =? 0).
    + apply wp_bind, wp_disable_irq. wps. right.
      exists (e1 ++ e2 ++ e3 ++ e4), q, [EvIrqDisable; EvConnReset].
      split; [cbn; rewrite <- !app_assoc; reflexivity|].
      rewrite !forallb_app, Q1, Q2, Q3, Q4, Q5.
      split; [reflexivity|]. split; [reflexivity|]. left.
      split; [reflexivity|]. split; [reflexivity|].
      eapply async_frame_trans; [exact F|]. apply async_frame_irq.
    + wps. assert (Hpre : forallb quiet (e1 ++ e2 ++ e3 ++ e4) = true)
        by (rewrite !forallb_app, Q1, Q2, Q3, Q4; reflexivity).
      destruct (checksumming (w_data w5) && negb (checksum_ok (w_data w5))).
      * eapply wp_mono; [|apply wp_crc_recovery].
        intros r w' e He. right.
        exists (e1 ++ e2 ++ e3 ++ e4), q, e.
        split; [cbn; rewrite <- !app_assoc; reflexivity|].
        split; [exact Hpre|]. split; [exact Q5|]. right; right.
        exists w5. auto.
      * wps. right. exists (e1 ++ e2 ++ e3 ++ e4), q, [].
        split; [cbn; rewrite <- !app_assoc; reflexivity|].
        split; [exact Hpre|]. split; [exact Q5|]. right; left. auto.
Qed.

(** Log observers skip over quiet events. *)
Lemma commands_quiet q x :
  forallb quiet q = true -> commands (q ++ x) = commands x.
Proof.
  induction q as [|a q IH]; cbn; [reflexivity|].
  intros H. apply andb_prop in H as [Ha Hq].
  destruct a; try discriminate Ha; apply IH, Hq.
Qed.

Lemma status_writes_quiet q x :
  forallb quiet q = true -> status_writes (q ++ x) = status_writes x.
Proof.
  induction q as [|a q IH]; cbn; [reflexivity|].
  intros H. apply andb_prop in H as [Ha Hq].
  destruct a; try discriminate Ha; apply IH, Hq.
Qed.

Lemma waits_quiet q x :
  forallb quiet q = true -> waits (q ++ x) = waits x.
Proof.
  induction q as [|a q IH]; cbn; [reflexivity|].
  intros H. apply andb_prop in H as [Ha Hq].
  destruct a; try discriminate Ha; apply IH, Hq.
Qed.

Lemma bus_ops_quiet q x :
  forallb quiet q = true -> bus_ops (q ++ x) = bus_ops x.
Proof.
  induction q as [|a q IH]; cbn; [reflexivity|].
  intros H. apply andb_prop in H as [Ha Hq].
  destruct a; try discriminate Ha; apply IH, Hq.
Qed.

(** What the checksum recovery shows on the bus and leaves in the data. *)
Definition recovery_obs (w : world) (r : Z) (w' : world) (e : list event)
  : Prop :=
  let prev := Z.land (val_status (w_data w)) 7 in
  r <> 0 /\
  (commands e = [SHT15_SOFT_RESET] /\ status_writes e = [] /\
   bus_ops e = [OpCmd SHT15_SOFT_RESET] \/
   commands e = [SHT15_SOFT_RESET; SHT15_WRITE_STATUS] /\ prev <> 0 /\
   (status_writes e = [] \/ status_writes e = [prev]) /\
   bus_ops e = [OpCmd SHT15_SOFT_RESET; OpCmd SHT15_WRITE_STATUS]) /\
  checksumming (w_data w') = checksumming (w_data w) /\
  measurements_valid (w_data w') = measurements_valid (w_data w) /\
  last_measurement (w_data w') = last_measurement (w_data w) /\
  status_valid (w_data w') = status_valid (w_data w) /\
  last_status (w_data w') = last_status (w_data w) /\
  state (w_data w') = state (w_data w).

Lemma recovery_post_obs w r w' e :
  recovery_post w r w' e -> recovery_obs w r w' e.
Proof.
  unfold recovery_post, recovery_obs.
  intros [H|[H|[H|[H|H]]]];
    destruct H as (Hl & H); repeat match type of H with
    | _ /\ _ => let H1 := fresh in destruct H as [H1 H]
    end; subst; rewrite H;
    (split; [intro; discriminate|]);
    (split; [first [left; cbn; auto 10; fail
                   | right; cbn; repeat split; auto; fail] |]);
    cbn; auto 10.
Qed.

Lemma measurement_obs cmd ms w :
  cmd = SHT15_MEASURE_RH \/ cmd = SHT15_MEASURE_TEMP ->
  wp (sht15_measurement cmd ms)
    (fun r w' e =>
       (r = - EIO /\ commands e = [cmd] /\ bus_ops e = [OpCmd cmd] /\
        status_writes e = [] /\ w_data w' = w_data w /\
        w_jiffies w' = w_jiffies w) \/
       (exists tail,
          (forall x, commands (e ++ x) = cmd :: commands (tail ++ x)) /\
          (forall x, bus_ops (e ++ x) =
                     OpCmd cmd :: OpWait ms :: bus_ops (tail ++ x)) /\
          (forall x, status_writes (e ++ x) = status_writes (tail ++ x)) /\
          ((r = - ETIME /\ tail = [EvIrqDisable; EvConnReset] /\
            async_frame w w') \/
           (r = 0 /\ tail = [] /\ async_frame w w') \/
           (exists wm, async_frame w wm /\ recovery_obs wm r w' tail)))) w.
Proof.
  intros Hc. eapply wp_mono; [| apply measurement_shape].
  assert (Hu : u8 cmd = cmd) by (destruct Hc; subst; reflexivity).
  rewrite Hu. intros r w' e [(Hr & He & Hw)|(pre & q & tail & He & Hp & Hq & Ht)].
  - left. subst. destruct Hc; subst; cbn; repeat split; auto.
  - right. exists tail. subst e.
    split; [| split; [| split]]; try (intros x; rewrite <- !app_assoc).
    + destruct Hc; subst; cbn [app commands];
        rewrite commands_quiet by exact Hp; cbn;
        rewrite <- ?app_assoc; rewrite commands_quiet by exact Hq; reflexivity.
    + cbn [app bus_ops]. rewrite bus_ops_quiet by exact Hp. cbn.
      rewrite <- ?app_assoc; rewrite bus_ops_quiet by exact Hq. reflexivity.
    + destruct Hc; subst; cbn [app status_writes];
        rewrite status_writes_quiet by exact Hp; cbn;
        rewrite <- ?app_assoc; rewrite status_writes_quiet by exact Hq; reflexivity.
    + destruct Ht as [Ht|[Ht|(wm & Hf & Hr)]]; auto.
      right; right. exists wm. split; [exact Hf|]. apply recovery_post_obs, Hr.
Qed.

Lemma async_frame_set_state w s :
  async_frame w (set_world_data (set_state s (w_data w)) w).
Proof. destruct w. unfold async_frame. cbn. tauto. Qed.

Lemma update_measurements_fresh w :
  measurements_stale w = false -> sht15_update_measurements w = (0, w, []).
Proof.
  unfold measurements_stale, sht15_update_measurements, bind. intros H.
  cbn [get_data jiffies get_hz]. rewrite H. reflexivity.
Qed.

Lemma update_measurements_refresh w :
  measurements_stale w = true ->
  wp sht15_update_measurements
    (fun r w' e =>
       let prev := Z.land (val_status (w_data w)) 7 in
       (exists k rc,
          (1 <= k <= 4)%nat /\
          (rc = [] \/ rc = [SHT15_SOFT_RESET] \/
           rc = [SHT15_SOFT_RESET; SHT15_WRITE_STATUS]) /\
          bus_ops e = firstn k [OpCmd SHT15_MEASURE_RH; OpWait 160;
                                OpCmd SHT15_MEASURE_TEMP; OpWait 400]
                      ++ map OpCmd rc /\
          (commands e = SHT15_MEASURE_RH :: rc \/
           commands e = SHT15_MEASURE_RH :: SHT15_MEASURE_TEMP :: rc)) /\
       (status_writes e = [] \/ (status_writes e = [prev] /\ prev <> 0)) /\
       (r = 0 ->
        bus_ops e = [OpCmd SHT15_MEASURE_RH; OpWait 160;
                     OpCmd SHT15_MEASURE_TEMP; OpWait 400] /\
        commands e = [SHT15_MEASURE_RH; SHT15_MEASURE_TEMP] /\
        measurements_valid (w_data w') = true /\
        last_measurement (w_data w') = w_jiffies w') /\
       (r <> 0 ->
        measurements_valid (w_data w') = measurements_valid (w_data w) /\
        last_measurement (w_data w') = last_measurement (w_data w))) w.
Proof.
  unfold measurements_stale. intros Hs. unfold sht15_update_measurements.
  wps. rewrite Hs. wps.
  assert (F0 := async_frame_set_state w SHT15_READING_HUMID).
  eapply wp_mono; [| apply measurement_obs; left; reflexivity].
  intros r1 w1 e1 H1. cbn [app].
  destruct H1 as [(Hr & Hc & Hb & Hsw & Hd & Hj)|(t1 & Hc & Hb & Hsw & Ht)].
  - (* the humidity command is not acknowledged *)
    subst r1. change (negb (- EIO =? 0)) with true. cbv iota. wps.
    rewrite !app_nil_r, Hc, Hb, Hsw, Hd. cbn.
    refine (conj _ (conj _ (conj _ _))).
    + exists 1%nat, []. cbn. split; [lia|]. auto.
    + auto.
    + intros Hx; discriminate Hx.
    + auto.
  - destruct Ht as [(Hr & -> & Hf)|[(Hr & -> & Hf)|(wm & Hf & Ho)]].
    + (* humidity timeout *)
      subst r1. change (negb (- ETIME =? 0)) with true. cbv iota. wps.
      rewrite Hc, Hb, Hsw. cbn.
      assert (F := async_frame_trans _ _ _ F0 Hf).
      destruct F as (F1 & F2 & F3 & F4 & F5).
      refine (conj _ (conj _ (conj _ _))).
      * exists 2%nat, []. cbn. split; [lia|]. auto.
      * auto.
      * intros Hx; discriminate Hx.
      * intros _. rewrite F3, F4. auto.
    + (* humidity read *)
      subst r1. change (negb (0 =? 0)) with false. cbv iota. wps.
      assert (F := async_frame_trans _ _ _ F0 Hf).
      assert (G0 := async_frame_set_state w1 SHT15_READING_TEMP).
      eapply wp_mono; [| apply measurement_obs; right; reflexivity].
      intros r2 w2 e2 H2. cbn [app].
      assert (FG := async_frame_trans _ _ _ F G0).
      destruct H2 as [(Hr & Hc2 & Hb2 & Hsw2 & Hd2 & Hj2)
                     |(t2 & Hc2 & Hb2 & Hsw2 & Ht2)].
      * (* the temperature command is not acknowledged *)
        subst r2. change (negb (- EIO =? 0)) with true. cbv iota. wps.
        rewrite Hc, Hb, Hsw. cbn [app]. rewrite !app_nil_r, Hc2, Hb2, Hsw2, Hd2.
        destruct FG as (F1 & F2 & F3 & F4 & F5).
        refine (conj _ (conj _ (conj _ _))).
        -- exists 3%nat, []. cbn. split; [lia|]. auto.
        -- auto.
        -- intros Hx; discriminate Hx.
        -- intros _. cbn. destruct F as (_ & _ & G3 & G4 & _). auto.
      * destruct Ht2 as [(Hr & -> & Hf2)|[(Hr & -> & Hf2)|(wm & Hf2 & Ho)]].
        -- (* temperature timeout *)
           subst r2. change (negb (- ETIME =? 0)) with true. cbv iota. wps.
           rewrite Hc, Hb, Hsw. cbn [app]. rewrite Hc2, Hb2, Hsw2.
           destruct (async_frame_trans _ _ _ FG Hf2) as (F1 & F2 & F3 & F4 & F5).
           refine (conj _ (conj _ (conj _ _))).
           ++ exists 4%nat, []. cbn. split; [lia|]. auto.
           ++ auto.
           ++ intros Hx; discriminate Hx.
           ++ intros _. rewrite F3, F4. auto.
        -- (* both values read *)
           subst r2. change (negb (0 =? 0)) with false. cbv iota. wps.
           cbn [app]. rewrite Hc, Hb, Hsw. cbn [app]. rewrite Hc2, Hb2, Hsw2.
           cbn. refine (conj _ (conj _ (conj _ _))).
           ++ exists 4%nat, []. cbn. split; [lia|]. auto.
           ++ auto.
           ++ auto.
           ++ intros Hx; contradiction Hx; reflexivity.
        -- (* recovery after the temperature read *)
           destruct Ho as (Hr & Ho).
           destruct (r2 =? 0) eqn:Hz; [apply Z.eqb_eq in Hz; contradiction|].
           cbn [negb]. wps.
           rewrite Hc, Hb, Hsw. cbn [app]. rewrite Hc2, Hb2, Hsw2, !app_nil_r.
           destruct (async_frame_trans _ _ _ FG Hf2) as (F1 & F2 & F3 & F4 & F5).
           destruct Ho as (Ho & Hm1 & Hm2 & Hm3 & _).
           rewrite F1 in Ho.
           refine (conj _ (conj _ (conj _ _))).
           ++ destruct Ho as [(Ho1 & Ho2 & Ho3)|(Ho1 & Ho2 & Ho3 & Ho4)].
              ** exists 4%nat, [SHT15_SOFT_RESET]. rewrite Ho1, Ho3. cbn.
                 split; [lia|]. auto.
              ** exists 4%nat, [SHT15_SOFT_RESET; SHT15_WRITE_STATUS].
                 rewrite Ho1, Ho4. cbn. split; [lia|]. auto.
           ++ destruct Ho as [(_ & Ho & _)|(_ & Hp & [Ho|Ho] & _)];
                rewrite Ho; auto.
           ++ intros; contradiction.
           ++ intros _. rewrite Hm2, Hm3, F3, F4. auto.
    + (* recovery after the humidity read *)
      destruct Ho as (Hr & Ho).
      destruct (r1 =? 0) eqn:Hz; [apply Z.eqb_eq in Hz; contradiction|].
      cbn [negb]. wps. rewrite Hc, Hb, Hsw, !app_nil_r.
      assert (F := async_frame_trans _ _ _ F0 Hf).
      destruct F as (F1 & F2 & F3 & F4 & F5).
      destruct Ho as (Ho & Hm1 & Hm2 & Hm3 & _).
      rewrite F1 in Ho. cbn in Ho.
      refine (conj _ (conj _ (conj _ _))).
      * destruct Ho as [(Ho1 & Ho2 & Ho3)|(Ho1 & Ho2 & Ho3 & Ho4)].
        -- exists 2%nat, [SHT15_SOFT_RESET]. rewrite Ho1, Ho3. cbn.
           split; [lia|]. auto.
        -- exists 2%nat, [SHT15_SOFT_RESET; SHT15_WRITE_STATUS].
           rewrite Ho1, Ho4. cbn. split; [lia|]. auto.
      * destruct Ho as [(_ & Ho & _)|(_ & Hp & [Ho|Ho] & _)];
          rewrite Ho; auto.
      * intros; contradiction.
      * intros _. rewrite Hm2, Hm3, F3, F4. auto.
Qed.

(** [time_after(jiffies, last + hz)] on a 32-bit [unsigned long], in
    terms of the elapsed ticks modulo 2^32. *)
Lemma time_after_window (j last hz : Z) :
  0 <= hz < 2 ^ 31 ->
  time_after j (ulong (last + hz)) =
  (hz <? (j - last) mod 2 ^ 32) && ((j - last) mod 2 ^ 32 <=? hz + 2 ^ 31).
Proof.
  intros Hh. unfold time_after, ulong, BITS_PER_LONG.
  rewrite Zminus_mod_idemp_l.
  replace (last + hz - j) with (hz - (j - last)) by ring.
  rewrite <- Zminus_mod_idemp_r.
  assert (Hd := Z.mod_pos_bound (j - last) (2 ^ 32) ltac:(lia)).
  set (d := (j - last) mod 2 ^ 32) in *.
  change (2 ^ (32 - 1)) with (2 ^ 31).
  destruct (Z.leb_spec d hz).
  - rewrite Z.mod_small by lia.
    destruct (Z.leb_spec (2 ^ 31) (hz - d)); [lia|].
    destruct (Z.ltb_spec hz d); [lia|]. reflexivity.
  - rewrite <- (Z.mod_unique (hz - d) (2 ^ 32) (-1) (hz - d + 2 ^ 32))
      by lia.
    destruct (Z.ltb_spec hz d); [|lia]. cbn [andb].
    destruct (Z.leb_spec (2 ^ 31) (hz - d + 2 ^ 32));
      destruct (Z.leb_spec d (hz + 2 ^ 31)); lia.
Qed.

Lemma update_status_commands w :
  status_stale w = true ->
  wp sht15_update_status
    (fun _ _ e =>
       exists rc, (rc = [] \/ rc = [SHT15_SOFT_RESET] \/
                   rc = [SHT15_SOFT_RESET; SHT15_WRITE_STATUS]) /\
                  commands e = SHT15_READ_STATUS :: rc) w.
Proof.
  intros Hs. eapply wp_mono; [| apply update_status_refresh, Hs].
  intros r w' e [(_ & -> & _)|[(_ & [->| ->])|(wm & er & _ & _ & _ & _ & -> & Hr)]].
  - exists []. auto.
  - exists []. auto.
  - exists []. auto.
  - apply recovery_post_obs in Hr. destruct Hr as (_ & Hr & _).
    destruct Hr as [(Hc & _)|(Hc & _)]; cbn; rewrite Hc; eauto 6.
Qed.

Lemma update_status_status_writes w :
  wp sht15_update_status
    (fun _ _ e =>
       status_writes e = [] \/
       (status_writes e = [Z.land (val_status (w_data w)) 7] /\
        Z.land (val_status (w_data w)) 7 <> 0)) w.
Proof.
  destruct (status_stale w) eqn:Hs.
  - eapply wp_mono; [| apply update_status_refresh, Hs].
    intros r w' e [(_ & -> & _)|[(_ & [->| ->])|(wm & er & _ & Hv & _ & _ & -> & Hr)]];
      auto.
    apply recovery_post_obs in Hr. destruct Hr as (_ & Hr & _).
    cbn. rewrite Hv in Hr.
    destruct Hr as [(_ & Ho & _)|(_ & Hp & [Ho|Ho] & _)]; rewrite Ho; auto.
  - unfold wp. rewrite update_status_fresh by exact Hs. auto.
Qed.

(** ** Claims on the refresh paths *)

(** C8.  On a measurement refresh (cache stale or invalid) the humidity
    command is issued first and waited for with a 160 ms timeout, then
    the temperature command with a 400 ms timeout; the bus shows a prefix
    of that sequence, possibly followed by the commands of a checksum
    recovery.  The cache is marked valid, with the current jiffies as
    timestamp, exactly when both measurements succeed, and is left as it
    was otherwise. *)
Theorem update_measurements_humid_then_temp w :
  measurements_stale w = true ->
  wp sht15_update_measurements
    (fun r w' e =>
       (exists k rc,
          (1 <= k <= 4)%nat /\
          (rc = [] \/ rc = [SHT15_SOFT_RESET] \/
           rc = [SHT15_SOFT_RESET; SHT15_WRITE_STATUS]) /\
          bus_ops e = firstn k [OpCmd SHT15_MEASURE_RH; OpWait 160;
                                OpCmd SHT15_MEASURE_TEMP; OpWait 400]
                      ++ map OpCmd rc) /\
       (r = 0 ->
        bus_ops e = [OpCmd SHT15_MEASURE_RH; OpWait 160;
                     OpCmd SHT15_MEASURE_TEMP; OpWait 400] /\
        measurements_valid (w_data w') = true /\
        last_measurement (w_data w') = w_jiffies w') /\
       (r <> 0 ->
        measurements_valid (w_data w') = measurements_valid (w_data w) /\
        last_measurement (w_data w') = last_measurement (w_data w))) w.
Proof.
  intros Hs. eapply wp_mono; [| apply update_measurements_refresh, Hs].
  intros r w' e ((k & rc & Hk & Hrc & Hb & _) & _ & H0 & H1).
  split; [exists k, rc; auto|]. split; [|exact H1].
  intros Hr. destruct (H0 Hr) as (Hb0 & _ & Hv & Ht). auto.
Qed.

Lemma update_measurements_humid_then_temp_witness :
  let w := mk_world (mk_sht15_data 0 0 0 false false SHT15_READING_NOTHING
                                   false false 0 0 3300000 true 0)
                    [] [] 0 false 0 100 in
  measurements_stale w = true /\
  wp sht15_update_measurements
    (fun r w' e =>
       (exists k rc,
          (1 <= k <= 4)%nat /\
          (rc = [] \/ rc = [SHT15_SOFT_RESET] \/
           rc = [SHT15_SOFT_RESET; SHT15_WRITE_STATUS]) /\
          bus_ops e = firstn k [OpCmd SHT15_MEASURE_RH; OpWait 160;
                                OpCmd SHT15_MEASURE_TEMP; OpWait 400]
                      ++ map OpCmd rc) /\
       (r = 0 ->
        bus_ops e = [OpCmd SHT15_MEASURE_RH; OpWait 160;
                     OpCmd SHT15_MEASURE_TEMP; OpWait 400] /\
        measurements_valid (w_data w') = true /\
        last_measurement (w_data w') = w_jiffies w') /\
       (r <> 0 ->
        measurements_valid (w_data w') = measurements_valid (w_data w) /\
        last_measurement (w_data w') = last_measurement (w_data w))) w.
Proof.
  intros w. split; [reflexivity|].
  apply (update_measurements_humid_then_temp w). reflexivity.
Defined.

Lemma measurements_commands w :
  measurements_stale w = true ->
  wp sht15_update_measurements
    (fun _ _ e =>
       exists rc, (rc = [] \/ rc = [SHT15_SOFT_RESET] \/
                   rc = [SHT15_SOFT_RESET; SHT15_WRITE_STATUS]) /\
                  (commands e = SHT15_MEASURE_RH :: rc \/
                   commands e = SHT15_MEASURE_RH :: SHT15_MEASURE_TEMP :: rc)) w.
Proof.
  intros Hs. eapply wp_mono; [| apply update_measurements_refresh, Hs].
  intros r w' e ((k & rc & _ & Hrc & _ & Hc) & _). eauto.
Qed.

(** C5 (corrected).  With [d] the ticks elapsed since the cached value
    was taken, modulo 2^32 (jiffies is a 32-bit [unsigned long]):  a
    valid cache with [d <= HZ] is used with no device command; an invalid
    cache, or [HZ < d <= HZ + 2^31], gives exactly one refresh cycle
    (status: the read-status command, then possibly a soft reset and a
    write-status; measurements: humidity, then possibly temperature, then
    possibly the same recovery commands); but a valid cache with
    [d > HZ + 2^31] is taken as fresh as well, though the window has long
    elapsed. *)
Theorem staleness_window w :
  0 <= w_hz w < 2 ^ 31 ->
  let ds := (w_jiffies w - last_status (w_data w)) mod 2 ^ 32 in
  let dm := (w_jiffies w - last_measurement (w_data w)) mod 2 ^ 32 in
  (status_valid (w_data w) = true ->
   ds <= w_hz w \/ w_hz w + 2 ^ 31 < ds ->
   sht15_update_status w = (0, w, [])) /\
  (status_valid (w_data w) = false \/ w_hz w < ds <= w_hz w + 2 ^ 31 ->
   wp sht15_update_status
     (fun _ _ e =>
        exists rc, (rc = [] \/ rc = [SHT15_SOFT_RESET] \/
                    rc = [SHT15_SOFT_RESET; SHT15_WRITE_STATUS]) /\
                   commands e = SHT15_READ_STATUS :: rc) w) /\
  (measurements_valid (w_data w) = true ->
   dm <= w_hz w \/ w_hz w + 2 ^ 31 < dm ->
   sht15_update_measurements w = (0, w, [])) /\
  (measurements_valid (w_data w) = false \/ w_hz w < dm <= w_hz w + 2 ^ 31 ->
   wp sht15_update_measurements
     (fun _ _ e =>
        exists rc, (rc = [] \/ rc = [SHT15_SOFT_RESET] \/
                    rc = [SHT15_SOFT_RESET; SHT15_WRITE_STATUS]) /\
                   (commands e = SHT15_MEASURE_RH :: rc \/
                    commands e = SHT15_MEASURE_RH :: SHT15_MEASURE_TEMP :: rc))
     w).
Proof.
  intros Hh ds dm.
  assert (Es : status_stale w =
               (w_hz w <? ds) && (ds <=? w_hz w + 2 ^ 31)
               || negb (status_valid (w_data w)))
    by (unfold status_stale; rewrite time_after_window by exact Hh; reflexivity).
  assert (Em : measurements_stale w =
               (w_hz w <? dm) && (dm <=? w_hz w + 2 ^ 31)
               || negb (measurements_valid (w_data w)))
    by (unfold measurements_stale; rewrite time_after_window by exact Hh;
        reflexivity).
  refine (conj _ (conj _ (conj _ _))).
  - intros Hv Hd. apply update_status_fresh. rewrite Es, Hv.
    destruct Hd; [destruct (Z.ltb_spec (w_hz w) ds); [lia|reflexivity]|].
    destruct (Z.leb_spec ds (w_hz w + 2 ^ 31)); [lia|].
    rewrite andb_false_r. reflexivity.
  - intros Hd. apply update_status_commands. rewrite Es.
    destruct Hd as [-> | Hd]; [apply orb_true_r|].
    destruct (Z.ltb_spec (w_hz w) ds); [|lia].
    destruct (Z.leb_spec ds (w_hz w + 2 ^ 31)); [reflexivity|lia].
  - intros Hv Hd. apply update_measurements_fresh. rewrite Em, Hv.
    destruct Hd; [destruct (Z.ltb_spec (w_hz w) dm); [lia|reflexivity]|].
    destruct (Z.leb_spec dm (w_hz w + 2 ^ 31)); [lia|].
    rewrite andb_false_r. reflexivity.
  - intros Hd. apply measurements_commands. rewrite Em.
    destruct Hd as [-> | Hd]; [apply orb_true_r|].
    destruct (Z.ltb_spec (w_hz w) dm); [|lia].
    destruct (Z.leb_spec dm (w_hz w + 2 ^ 31)); [reflexivity|lia].
Qed.

Lemma staleness_window_witness :
  let w := mk_world (mk_sht15_data 0 0 0 false false SHT15_READING_NOTHING
                                   true true 1000 1000 3300000 true 0)
                    [] [] 0 false 1050 100 in
  sht15_update_status w = (0, w, []) /\
  sht15_update_measurements w = (0, w, []).
Proof.
  intros w.
  destruct (staleness_window w ltac:(cbn; lia)) as (H1 & _ & H3 & _).
  split; [apply H1 | apply H3]; try reflexivity; left; vm_compute; discriminate.
Defined.

(** C5, the claim as stated fails: a valid status read HZ + 2^31 + 1
    ticks after the cached one, so long after the one-second window,
    issues no command and keeps the cached status. *)
Lemma staleness_window_claim_fails :
  let w := mk_world (mk_sht15_data 0 0 0 false false SHT15_READING_NOTHING
                                   true true 0 0 3300000 true 0)
                    [] [] 0 false (100 + 2 ^ 31 + 1) 100 in
  status_valid (w_data w) = true /\
  w_hz w < w_jiffies w - last_status (w_data w) < 2 ^ 32 /\
  sht15_update_status w = (0, w, []).
Proof.
  intros w. split; [reflexivity|]. split; [cbn; lia|]. reflexivity.
Qed.

(** C2 (corrected).  The configuration byte a checksum recovery writes
    back, in the status-read path and in the measurement path, is the
    previous mirror masked with 0x07: it is written only when nonzero,
    it keeps the low-resolution, no-OTP-reload and heater (0x04) bits of
    the mirror, and drops battery-low and every bit above the low three.
    So the heater bit is restored, not dropped. *)
Theorem recovery_status_byte w :
  let prev := Z.land (val_status (w_data w)) 7 in
  wp sht15_update_status
    (fun _ _ e => status_writes e = [] \/
                  (status_writes e = [prev] /\ prev <> 0)) w /\
  wp sht15_update_measurements
    (fun _ _ e => status_writes e = [] \/
                  (status_writes e = [prev] /\ prev <> 0)) w /\
  (forall n, 0 <= n < 3 -> Z.testbit prev n = Z.testbit (val_status (w_data w)) n) /\
  (forall n, 3 <= n -> Z.testbit prev n = false).
Proof.
  intros prev. refine (conj _ (conj _ (conj _ _))).
  - apply update_status_status_writes.
  - destruct (measurements_stale w) eqn:Hs.
    + eapply wp_mono; [| apply update_measurements_refresh, Hs].
      intros r w' e (_ & Hw & _). exact Hw.
    + unfold wp. rewrite update_measurements_fresh by exact Hs. auto.
  - intros n Hn. unfold prev. rewrite Z.land_spec.
    destruct (Z.eq_dec n 0) as [->|]; [apply andb_true_r|].
    destruct (Z.eq_dec n 1) as [->|]; [apply andb_true_r|].
    assert (n = 2) as -> by lia. apply andb_true_r.
  - intros n Hn. unfold prev. rewrite Z.land_spec.
    replace (Z.testbit 7 n) with false; [apply andb_false_r|].
    symmetry. change 7 with (Z.ones 3). apply Z.ones_spec_high. lia.
Qed.

(** C2, the claim as stated fails: with the heater on (mirror 0x04) and
    a corrupted status read, the recovery writes 0x04 back. *)
Lemma recovery_status_byte_claim_fails :
  let w := mk_world (mk_sht15_data 0 0 SHT15_STATUS_HEATER false true
                                   SHT15_READING_NOTHING
                                   false false 0 0 3300000 true 0)
                    (repeat false 24) [] 0 false 0 100 in
  let '(r, _, e) := sht15_update_status w in
  r = - EAGAIN /\ status_writes e = [SHT15_STATUS_HEATER].
Proof. vm_compute. split; reflexivity. Qed.

(** C3 (corrected).  When the device does not answer a measurement in
    time (the data line is still high at the race check and no interrupt
    or work runs during the wait), sht15_measurement() disables the
    interrupt, resets the connection and returns -ETIME; the pending
    operation state is left as the caller set it (a reading state), it
    is not reset to SHT15_READING_NOTHING. *)
Theorem measurement_timeout_keeps_state cmd ms w rest more :
  w_line w = false :: true :: rest ->
  w_async w = [] :: more ->
  state (w_data w) <> SHT15_READING_NOTHING ->
  let '(r, w', e) := sht15_measurement cmd ms w in
  r = - ETIME /\ state (w_data w') = state (w_data w) /\
  e = [EvStart; EvByte (u8 cmd); EvIrqEnable; EvWait ms;
       EvIrqDisable; EvConnReset].
Proof.
  destruct w as [d l a n p j h]. cbn [w_line w_async w_data].
  intros -> -> Hs.
  destruct d as [vt vh vs co cs st mv sv lm ls su suv ih]. cbn in Hs |- *.
  destruct st; [contradiction|..]; cbn; auto.
Qed.

Lemma measurement_timeout_keeps_state_witness :
  let w := mk_world (mk_sht15_data 0 0 0 false false SHT15_READING_HUMID
                                   false false 0 0 3300000 true 0)
                    [false; true] [[]] 0 false 0 100 in
  let '(r, w', e) := sht15_measurement SHT15_MEASURE_RH 160 w in
  r = - ETIME /\ state (w_data w') = state (w_data w) /\
  e = [EvStart; EvByte (u8 SHT15_MEASURE_RH); EvIrqEnable; EvWait 160;
       EvIrqDisable; EvConnReset].
Proof.
  intros w.
  apply (measurement_timeout_keeps_state SHT15_MEASURE_RH 160 w [] []);
    try reflexivity; discriminate.
Defined.

(** C3, the claim as stated fails: a humidity measurement that times out
    inside sht15_update_measurements() returns -ETIME with the state
    still SHT15_READING_HUMID. *)
Lemma measurement_timeout_claim_fails :
  let w := mk_world (mk_sht15_data 0 0 0 false false SHT15_READING_NOTHING
                                   false false 0 0 3300000 true 0)
                    [false; true] [[]] 0 false 0 100 in
  let '(r, w', _) := sht15_update_measurements w in
  r = - ETIME /\ state (w_data w') = SHT15_READING_HUMID /\
  state (w_data w') <> SHT15_READING_NOTHING.
Proof. vm_compute. split; [reflexivity|]. split; [reflexivity|discriminate]. Qed.

(** C4 (corrected).  A status read whose checksum does not match sends
    exactly one soft reset after the read-status command.  A write-status
    follows iff the device acknowledged the reset and the masked previous
    configuration [val_status & 0x07] is nonzero (a NAKed reset is
    followed by nothing, whatever the configuration).  The call returns
    -EAGAIN iff no step of the recovery was NAKed, and -EIO otherwise; the
    read status byte is never stored: the mirror ends as it was (reset
    NAKed), 0, or the masked previous configuration, and the validity
    flag and timestamp of the status are unchanged. *)
Theorem status_crc_mismatch_recovery w sbits cbits rest :
  status_stale w = true ->
  checksumming (w_data w) = true ->
  w_line w = false :: sbits ++ cbits ++ rest ->
  length sbits = 8%nat -> length cbits = 8%nat ->
  (sht15_crc8 (w_data w) [SHT15_READ_STATUS; byte_of_bits sbits]
   =? sht15_reverse (byte_of_bits cbits)) = false ->
  wp sht15_update_status
    (fun r w' e =>
       let prev := Z.land (val_status (w_data w)) 7 in
       (commands e = [SHT15_READ_STATUS; SHT15_SOFT_RESET] \/
        commands e = [SHT15_READ_STATUS; SHT15_SOFT_RESET;
                      SHT15_WRITE_STATUS]) /\
       (In SHT15_WRITE_STATUS (commands e) <->
        line_head rest = false /\ prev <> 0) /\
       (r = - EAGAIN <-> ~ In EvConnReset e) /\
       (r = - EAGAIN \/ r = - EIO) /\
       (val_status (w_data w') = val_status (w_data w) \/
        val_status (w_data w') = 0 \/ val_status (w_data w') = prev) /\
       status_valid (w_data w') = status_valid (w_data w) /\
       last_status (w_data w') = last_status (w_data w)) w.
Proof.
  intros Hs Hc Hl H8 H8' Hcrc.
  unfold status_stale in Hs. unfold sht15_update_status. wps. rewrite Hs.
  apply wp_bind, wp_send_cmd. rewrite Hl. cbn [line_head tl negb Z.eqb].
  apply wp_bind, wp_read_byte_exact; [exact H8|]. wps.
  cbn [w_data set_world_line]. rewrite Hc. wps.
  apply wp_bind, wp_read_byte_exact; [exact H8'|]. wps.
  cbn [w_data set_world_line set_world_data]. rewrite Hcrc.
  wps. cbn [w_data set_world_data set_checksum_ok checksumming checksum_ok].
  rewrite Hc. cbn [andb negb].
  eapply wp_mono; [| apply wp_crc_recovery].
  intros r w' e Hr. unfold recovery_post in Hr.
  cbn [w_data w_line set_world_data set_world_line set_checksum_ok
       val_status] in Hr.
  cbn [app].
  destruct Hr as [H|[H|[H|[H|H]]]]; decompose [and] H; clear H;
    subst r e;
    match goal with Hd : w_data w' = _ |- _ => rewrite Hd end;
    cbn; intuition (try discriminate; try congruence).
Qed.

Lemma status_crc_mismatch_recovery_witness :
  let w := mk_world (mk_sht15_data 0 0 1 false true SHT15_READING_NOTHING
                                   false false 0 0 3300000 true 0)
                    (false :: repeat false 8 ++ repeat false 8 ++ [false])
                    [] 0 false 0 100 in
  wp sht15_update_status
    (fun r w' e =>
       let prev := Z.land (val_status (w_data w)) 7 in
       (commands e = [SHT15_READ_STATUS; SHT15_SOFT_RESET] \/
        commands e = [SHT15_READ_STATUS; SHT15_SOFT_RESET;
                      SHT15_WRITE_STATUS]) /\
       (In SHT15_WRITE_STATUS (commands e) <->
        line_head [false] = false /\ prev <> 0) /\
       (r = - EAGAIN <-> ~ In EvConnReset e) /\
       (r = - EAGAIN \/ r = - EIO) /\
       (val_status (w_data w') = val_status (w_data w) \/
        val_status (w_data w') = 0 \/ val_status (w_data w') = prev) /\
       status_valid (w_data w') = status_valid (w_data w) /\
       last_status (w_data w') = last_status (w_data w)) w.
Proof.
  intros w.
  apply (status_crc_mismatch_recovery w (repeat false 8) (repeat false 8)
           [false]); vm_compute; reflexivity.
Defined.

(** C4, the claim as stated fails: with a nonzero configuration (0x01)
    and the soft reset NAKed, no write-status is issued. *)
Lemma status_crc_mismatch_claim_fails :
  let w := mk_world (mk_sht15_data 0 0 1 false true SHT15_READING_NOTHING
                                   false false 0 0 3300000 true 0)
                    (false :: repeat false 8 ++ repeat false 8 ++ [true])
                    [] 0 false 0 100 in
  let '(r, _, e) := sht15_update_status w in
  Z.land (val_status (w_data w)) 7 <> 0 /\
  commands e = [SHT15_READ_STATUS; SHT15_SOFT_RESET] /\ r = - EIO.
Proof. vm_compute. split; [discriminate|]. split; reflexivity. Qed.

(** ** Claims on the calibration *)



(** ** Claims on the heater *)

(** C10.  Writing the heater attribute sends one write-status command and
    no other command (no status read comes first).  The byte written is
    [val_status & 0x07] of the current mirror with the heater bit 0x04
    set or cleared as requested: it is below 8, so battery-low and all
    higher bits are 0, and its low-resolution and no-OTP-reload bits are
    those of the mirror.  The byte goes out when the command is
    acknowledged; the call returns [count] on success and -EIO
    otherwise. *)
Theorem store_heater_written_byte v count w :
  wp (sht15_store_heater (Some v) count)
    (fun r _ e =>
       exists s,
         0 <= s < 8 /\
         Z.land s 3 = Z.land (val_status (w_data w)) 3 /\
         Z.testbit s 2 = negb (v =? 0) /\
         commands e = [SHT15_WRITE_STATUS] /\
         status_writes e = (if line_head (w_line w) then [] else [s]) /\
         (r = count \/ r = - EIO)) w.
Proof.
  unfold sht15_store_heater.
  apply wp_bind, wp_get_data. cbn beta zeta.
  apply wp_bind, wp_send_status. cbn zeta.
  assert (H3 : Z.land (Z.land (val_status (w_data w)) 7) 3 =
               Z.land (val_status (w_data w)) 3)
    by (rewrite <- Z.land_assoc; reflexivity).
  assert (Hb : 0 <= Z.land (val_status (w_data w)) 7 < 8)
    by (change 7 with (Z.ones 3); rewrite Z.land_ones by lia;
        apply Z.mod_pos_bound; lia).
  rewrite <- H3. clear H3.
  revert Hb. generalize (Z.land (val_status (w_data w)) 7) as k. intros k Hk.
  assert (Hs : forall k, 0 <= k < 8 ->
            let s := if negb (v =? 0) then Z.lor k SHT15_STATUS_HEATER
                     else u8 (Z.land k (Z.lnot SHT15_STATUS_HEATER)) in
            0 <= s < 8 /\ Z.land s 3 = Z.land k 3 /\
            Z.testbit s 2 = negb (v =? 0) /\ u8 s = s).
  { clear k Hk. intros k Hk.
    assert (Hc : k = 0 \/ k = 1 \/ k = 2 \/ k = 3 \/ k = 4 \/ k = 5 \/
                 k = 6 \/ k = 7) by lia.
    destruct (negb (v =? 0));
      repeat (destruct Hc as [-> | Hc]); try subst k; unfold SHT15_STATUS_HEATER; cbn;
      (split; [lia|]); auto. }
  destruct (Hs k Hk) as (Hs1 & Hs2 & Hs3 & Hs4). clear Hs.
  revert Hs1 Hs2 Hs3 Hs4.
  generalize (if negb (v =? 0) then Z.lor k SHT15_STATUS_HEATER
              else u8 (Z.land k (Z.lnot SHT15_STATUS_HEATER))).
  intros s Hs1 Hs2 Hs3 Hs4.
  destruct (line_head (w_line w)); [| destruct (line_head (tl (w_line w)))];
    wps; exists s; rewrite ?Hs4; cbn; auto 7.
Qed.

(** ** Reading a 16-bit value *)

Lemma read_step_range x b : 0 <= Z.lor (u8 x) (bool_to_Z b) < 256.
Proof.
  destruct b; cbn [bool_to_Z].
  - assert (E : Z.lor (u8 x) 1 = u8 (Z.lor x 1))
      by (unfold u8; rewrite Z.land_lor_distr_l; reflexivity).
    rewrite E. apply u8_range.
  - rewrite Z.lor_0_r. apply u8_range.
Qed.

Lemma byte_of_bits_range bits : 0 <= byte_of_bits bits < 256.
Proof.
  unfold byte_of_bits.
  assert (H : forall acc, 0 <= acc < 256 ->
            0 <= fold_left (fun byte b => Z.lor (u8 (Z.shiftl byte 1))
                                                (bool_to_Z b)) bits acc < 256).
  { induction bits as [|b bits IH]; intros acc Hacc; [exact Hacc|].
    apply IH, read_step_range. }
  apply H. lia.
Qed.

Lemma join_bytes hi lo :
  0 <= hi < 256 -> 0 <= lo < 256 ->
  Z.lor (u16 (Z.shiftl hi 8)) lo = hi * 256 + lo.
Proof.
  intros Hh Hl.
  assert (Hs : u16 (Z.shiftl hi 8) = hi * 256).
  { unfold u16. change 65535 with (Z.ones 16).
    rewrite Z.land_ones, Z.shiftl_mul_pow2 by lia.
    apply Z.mod_small. lia. }
  rewrite Hs.
  assert (Hd : Z.land (hi * 256) lo = 0).
  { apply Z.bits_inj'. intros n Hn.
    rewrite Z.land_spec, Z.bits_0.
    change 256 with (2 ^ 8). rewrite <- Z.shiftl_mul_pow2 by lia.
    rewrite Z.shiftl_spec by lia.
    destruct (Z.ltb_spec n 8).
    - rewrite Z.testbit_neg_r by lia. reflexivity.
    - destruct (Z.eq_dec lo 0) as [->|]; [rewrite Z.bits_0; apply andb_false_r|].
      rewrite (Z.bits_above_log2 lo n); [apply andb_false_r| lia |].
      assert (Z.log2 lo < 8) by (apply Z.log2_lt_pow2; lia). lia. }
  rewrite <- Z.lxor_lor by exact Hd.
  rewrite <- Z.add_nocarry_lxor by exact Hd. reflexivity.
Qed.


(** ** The bottom half *)

Lemma wp_bh_read_plain w hib lob rest Q :
  w_line w = false :: hib ++ lob ++ rest ->
  length hib = 8%nat -> length lob = 8%nat ->
  checksumming (w_data w) = false ->
  (let d := w_data w in
   let v := byte_of_bits hib * 256 + byte_of_bits lob in
   let d2 := match state d with
             | SHT15_READING_TEMP => set_val_temp v d
             | SHT15_READING_HUMID => set_val_humid v d
             | SHT15_READING_NOTHING => d
             end in
   Q tt (set_world_data (set_state SHT15_READING_NOTHING d2)
                        (set_world_line rest w)) [EvAck; EvEnd]) ->
  wp sht15_bh_read_data Q w.
Proof.
  intros Hl H8 H8' Hc HQ. unfold sht15_bh_read_data.
  apply wp_bind, wp_gpio. rewrite Hl. cbn [line_head tl].
  wps. cbn [negb].
  apply wp_bind, wp_read_byte_exact; [exact H8|]. cbn zeta. wps.
  apply wp_bind, wp_read_byte_exact; [exact H8'|]. cbn zeta. wps.
  cbn [w_data set_world_line]. rewrite Hc. wps.
  rewrite join_bytes by apply byte_of_bits_range.
  cbn [w_data set_world_line] in *. cbv zeta in HQ.
  destruct (state (w_data w)); wps; exact HQ.
Qed.


(** ** Further properties of the driver *)

Lemma wp_eq {A} (m : M A) w r :
  wp m (fun a w' e => (a, w', e) = r) w -> m w = r.
Proof. unfold wp. destruct (m w) as [[a w'] e]. auto. Qed.

Lemma wp_enable_irq Q w :
  Q tt (set_world_irq_depth (Z.max 0 (w_irq_depth w - 1)) w) [EvIrqEnable] ->
  wp enable_irq Q w.
Proof. unfold wp, enable_irq, bind, emit. cbn. auto. Qed.

Lemma wp_schedule_work Q w :
  Q tt (set_world_work_pending true w) [] -> wp schedule_work Q w.
Proof. unfold wp, schedule_work. auto. Qed.

Lemma wp_interrupt_fired Q w :
  Q tt (set_world_work_pending
          (w_work_pending w
           || negb (sht15_state_eqb (state (w_data w)) SHT15_READING_NOTHING))
          (set_world_irq_depth (w_irq_depth w + 1)
             (set_world_data
                (set_interrupt_handled (interrupt_handled (w_data w) + 1)
                   (w_data w)) w)))
    [EvIrqDisable] ->
  wp sht15_interrupt_fired Q w.
Proof.
  intros H. destruct w as [d l a n p j h].
  unfold wp, sht15_interrupt_fired, bind, disable_irq_nosync, emit,
    get_data, modify_data, schedule_work, skip, ret.
  cbn in *. destruct d; cbn in *.
  destruct state0, p; exact H.
Qed.

Lemma wp_deliver_irq Q w :
  (if w_irq_depth w =? 0 then wp sht15_interrupt_fired Q w else Q tt w []) ->
  wp (deliver AIrq) Q w.
Proof. unfold wp, deliver, skip, ret. destruct (w_irq_depth w =? 0); auto. Qed.

Lemma wp_deliver_work Q w :
  (if w_work_pending w
   then wp sht15_bh_read_data Q (set_world_work_pending false w)
   else Q tt w []) ->
  wp (deliver AWork) Q w.
Proof. unfold wp, deliver, skip, ret. destruct (w_work_pending w); auto. Qed.

Lemma wp_next_async es more Q w :
  w_async w = es :: more -> Q es (set_world_async more w) [] ->
  wp next_async Q w.
Proof. unfold wp, next_async. intros ->. auto. Qed.




(** X3.  With checksumming off, when the data line is low at the first
    sample, sht15_bh_read_data() reads two bytes MSB first, stores
    [hi * 256 + lo] into [val_temp] or [val_humid] according to the
    reading in progress, sets the state to SHT15_READING_NOTHING and
    acknowledges the first byte and ends the transmission. *)
Theorem bh_read_data_stores_value w hib lob rest :
  w_line w = false :: hib ++ lob ++ rest ->
  length hib = 8%nat -> length lob = 8%nat ->
  checksumming (w_data w) = false ->
  sht15_bh_read_data w =
  (tt, set_world_data
         (set_state SHT15_READING_NOTHING
            (reading_stored (byte_of_bits hib * 256 + byte_of_bits lob)
               (w_data w)))
         (set_world_line rest w), [EvAck; EvEnd]).
Proof.
  intros Hl H8 H8' Hc. apply wp_eq.
  apply (wp_bh_read_plain w hib lob rest); auto.
Qed.

Lemma bh_read_data_stores_value_witness :
  let hib := [false; false; false; true; false; false; true; true] in
  let lob := [true; false; false; false; false; false; false; true] in
  let w := mk_world (mk_sht15_data 0 0 0 false false SHT15_READING_TEMP
                        false false 0 0 0 false 1)
             (false :: hib ++ lob ++ []) [] 1 false 0 100 in
  (w_line w = false :: hib ++ lob ++ [] /\ length hib = 8%nat /\
   length lob = 8%nat /\ checksumming (w_data w) = false) /\
  sht15_bh_read_data w =
  (tt, set_world_data
         (set_state SHT15_READING_NOTHING
            (reading_stored (byte_of_bits hib * 256 + byte_of_bits lob)
               (w_data w)))
         (set_world_line [] w), [EvAck; EvEnd]).
Proof.
  intros hib lob w.
  split; [repeat split |].
  apply bh_read_data_stores_value; reflexivity.
Defined.






(** The interrupt path of a measurement: the command is acknowledged,
    the line is still high when the driver checks it after enabling the
    interrupt, and during the wait the interrupt fires and then the
    read work runs and finds the line low. *)
Lemma wp_measurement_irq cmd ms w hib lob rest more Q :
  w_line w = false :: true :: false :: hib ++ lob ++ rest ->
  w_async w = [AIrq; AWork] :: more ->
  0 <= w_irq_depth w <= 1 ->
  length hib = 8%nat -> length lob = 8%nat ->
  checksumming (w_data w) = false ->
  sht15_state_eqb (state (w_data w)) SHT15_READING_NOTHING = false ->
  Q 0 (mk_world
         (set_state SHT15_READING_NOTHING
            (reading_stored (byte_of_bits hib * 256 + byte_of_bits lob)
               (set_interrupt_handled 1 (w_data w))))
         rest more 1 false (w_jiffies w) (w_hz w))
    [EvStart; EvByte (u8 cmd); EvIrqEnable; EvWait ms; EvIrqDisable;
     EvAck; EvEnd] ->
  wp (sht15_measurement cmd ms) Q w.
Proof.
  intros Hl Ha Hn H8 H8' Hc Hs HQ. unfold sht15_measurement.
  apply wp_bind, wp_send_cmd. rewrite Hl. cbn [line_head tl negb Z.eqb].
  wps. apply wp_bind, wp_enable_irq.
  apply wp_bind, wp_gpio. cbn [w_line set_world_line set_world_irq_depth
                               set_world_data line_head tl negb].
  wps. unfold wait_event_timeout. wps.
  eapply wp_next_async; [cbn; exact Ha |]. cbn beta.
  apply wp_bind. cbn [deliver_all]. apply wp_bind, wp_deliver_irq.
  cbn [w_irq_depth set_world_async set_world_line set_world_irq_depth
       set_world_data].
  replace (Z.max 0 (w_irq_depth w - 1) =? 0) with true by lia.
  apply wp_interrupt_fired.
  apply wp_bind, wp_deliver_work.
  cbn [w_work_pending w_data set_world_async set_world_line
       set_world_irq_depth set_world_data set_world_work_pending
       state set_interrupt_handled].
  rewrite Hs. cbn [negb orb].
  rewrite orb_true_r.
  apply (wp_bh_read_plain _ hib lob rest); [reflexivity | exact H8
                                          | exact H8' | exact Hc |].
  cbv zeta. apply wp_skip. wps.
  cbn [w_data set_world_data set_world_line set_world_work_pending
       set_world_irq_depth set_world_async state set_state w_line w_async
       w_irq_depth w_work_pending w_jiffies w_hz interrupt_handled
       set_interrupt_handled checksumming].
  change (sht15_state_eqb SHT15_READING_NOTHING SHT15_READING_NOTHING)
    with true. cbv iota. cbn [Z.eqb]. wps.
  unfold reading_stored in HQ |- *. cbn [state set_interrupt_handled] in HQ.
  destruct (state (w_data w)); [discriminate Hs | |];
    cbn [w_data set_world_data checksumming set_state set_val_temp
         set_val_humid set_interrupt_handled];
    rewrite Hc; cbn [andb]; wps;
    destruct w as [d0 l0 a0 n0 p0 j0 h0];
    cbn [w_data w_line w_async w_irq_depth w_work_pending w_jiffies w_hz
         set_world_data set_world_line set_world_async set_world_irq_depth
         set_world_work_pending] in Hn |- *;
    replace (Z.max 0 (n0 - 1) + 1) with 1 by lia; exact HQ.
Qed.


(** X6.  A measurement completed through the interrupt: when the
    command is acknowledged, the line is still high at the driver's
    check, and during the wait the interrupt fires and then the read
    work finds the line low, sht15_measurement() returns 0 with the
    reading stored and the state back to SHT15_READING_NOTHING (with
    checksumming off); the interrupt is left disabled, the work is no
    longer queued and [interrupt_handled] is 1. *)
Theorem measurement_irq_path cmd ms w hib lob rest more :
  w_line w = false :: true :: false :: hib ++ lob ++ rest ->
  w_async w = [AIrq; AWork] :: more ->
  0 <= w_irq_depth w <= 1 ->
  length hib = 8%nat -> length lob = 8%nat ->
  checksumming (w_data w) = false ->
  sht15_state_eqb (state (w_data w)) SHT15_READING_NOTHING = false ->
  sht15_measurement cmd ms w =
  (0, mk_world
        (set_state SHT15_READING_NOTHING
           (reading_stored (byte_of_bits hib * 256 + byte_of_bits lob)
              (set_interrupt_handled 1 (w_data w))))
        rest more 1 false (w_jiffies w) (w_hz w),
   [EvStart; EvByte (u8 cmd); EvIrqEnable; EvWait ms; EvIrqDisable;
    EvAck; EvEnd]).
Proof.
  intros Hl Ha Hn H8 H8' Hc Hs. apply wp_eq.
  apply (wp_measurement_irq cmd ms w hib lob rest more); auto.
Qed.

Lemma measurement_irq_path_witness :
  let hib := [false; false; false; false; false; true; false; true] in
  let lob := [false; true; false; true; false; false; false; false] in
  let w := mk_world (mk_sht15_data 0 0 0 false false SHT15_READING_HUMID
                        false false 0 0 0 false 0)
             (false :: true :: false :: hib ++ lob ++ [])
             [[AIrq; AWork]] 1 false 0 100 in
  (w_line w = false :: true :: false :: hib ++ lob ++ [] /\
   w_async w = [AIrq; AWork] :: [] /\ 0 <= w_irq_depth w <= 1 /\
   length hib = 8%nat /\ length lob = 8%nat /\
   checksumming (w_data w) = false /\
   sht15_state_eqb (state (w_data w)) SHT15_READING_NOTHING = false) /\
  sht15_measurement SHT15_MEASURE_RH 160 w =
  (0, mk_world
        (set_state SHT15_READING_NOTHING
           (reading_stored (byte_of_bits hib * 256 + byte_of_bits lob)
              (set_interrupt_handled 1 (w_data w))))
        [] [] 1 false (w_jiffies w) (w_hz w),
   [EvStart; EvByte (u8 SHT15_MEASURE_RH); EvIrqEnable; EvWait 160;
    EvIrqDisable; EvAck; EvEnd]).
Proof.
  intros hib lob w.
  split; [repeat split; cbn; lia |].
  apply measurement_irq_path; cbn; try reflexivity; lia.
Defined.
